(** * ESP32 CYD weather station: the sketch's decision logic, verified

    A shallow embedding of [Esp32_CYD_TFT_eSPI_OpenWeather_LittleFS_v02.ino]:
    the weather-code classifiers, the text and compass helpers, the
    reverse-geocoding cache and the refresh cycle ([updateData] with the
    panels it draws).

    Conventions.
    - C integers are [Z]; a narrowing conversion is written out ([u16]).
    - A [float] is the rational it denotes ([Q]): the sketch only compares
      floats and prints them with [String(x, 0)], and a number of the
      document is taken as the float it is read into.
    - The display is the list of drawing calls issued so far (oldest first).
    - Vendor libraries (TFT_eSPI, TimeLib, Timezone, ArduinoJson's text
      conversions, LittleFS) and the settings tab are a [Platform] record. *)

From Stdlib Require Import ZArith QArith Qround String Ascii List Lia Bool DecimalString.
From stdpp Require Import base list strings.

Local Open Scope string_scope.
Local Open Scope Z_scope.

(** ** Machine integers *)

(** Conversion to [uint16_t]. *)
Definition u16 (z : Z) : Z := z mod 65536.

(** The cast [(int) x] of a floating value: truncation toward zero. *)
Definition truncQ (q : Q) : Z := Z.quot (Qnum q) (Zpos (Qden q)).

(** Comparisons of [float]s. *)
Definition Qltb (a b : Q) : bool :=
  match Qcompare a b with Lt => true | _ => false end.

(** ** Weather code classifiers *)

Module Classifier.

(** Step 1 of [getMeteoconIcon]: [if (today && id <= 3 && (now() < sunrise ||
    now() > sunset)) id += 1000;].  The clock is read once per comparison;
    [now1] and [now2] are the two readings. *)
Definition night_adjust (now1 now2 sunrise sunset : Z) (id : Z) (today : bool) : Z :=
  if today && (id <=? 3) && ((now1 <? sunrise) || (sunset <? now2))
  then u16 (id + 1000)
  else id.

(** Step 2 of [getMeteoconIcon]: the chain of [if (...) return "..."]. *)
Definition icon_name (id : Z) : string :=
  if id =? 0 then "clear-day"
  else if id =? 1000 then "clear-night"
  else if (1 <=? id) && (id <=? 3) then "partly-cloudy-day"
  else if (1001 <=? id) && (id <=? 1003) then "partly-cloudy-night"
  else if (id =? 45) || (id =? 48) then "fog"
  else if (51 <=? id) && (id <=? 55) then "drizzle"
  else if (61 <=? id) && (id <=? 67) then "rain"
  else if (80 <=? id) && (id <=? 82) then "rain"
  else if (71 <=? id) && (id <=? 77) then "snow"
  else if (id =? 85) || (id =? 86) then "snow"
  else if (95 <=? id) && (id <=? 99) then "thunderstorm"
  else "unknown".

(** [const char* getMeteoconIcon(uint16_t id, bool today)]; the argument is
    converted to [uint16_t] at the call. *)
Definition getMeteoconIcon_at (now1 now2 sunrise sunset : Z) (id : Z) (today : bool)
  : string :=
  icon_name (night_adjust now1 now2 sunrise sunset (u16 id) today).

(** The same with one reading of the clock. *)
Definition getMeteoconIcon (now sunrise sunset : Z) (id : Z) (today : bool) : string :=
  getMeteoconIcon_at now now sunrise sunset id today.

(** The condition word of [drawCurrentWeather] ([String legend = "Clouds";
    int code = forecast->id[0]; if ... else if ...]). *)
Definition legend (code : Z) : string :=
  if code =? 0 then "Clear"
  else if code <=? 3 then "Cloudy"
  else if code <=? 67 then "Rain"
  else if code <=? 99 then "Storm"
  else "Clouds".

(** *** The icon mapping as the specification words it

    A fixed, ordered table of closed numeric ranges; the first range that
    contains the code gives the icon, and a code in no range gives the
    sentinel. *)
Definition icon_table : list (Z * Z * string) :=
  [ (0, 0, "clear-day"); (1000, 1000, "clear-night");
    (1, 3, "partly-cloudy-day"); (1001, 1003, "partly-cloudy-night");
    (45, 45, "fog"); (48, 48, "fog");
    (51, 55, "drizzle");
    (61, 67, "rain"); (80, 82, "rain");
    (71, 77, "snow"); (85, 86, "snow");
    (95, 99, "thunderstorm") ].

Fixpoint first_match (tbl : list (Z * Z * string)) (id : Z) : option string :=
  match tbl with
  | [] => None
  | (lo, hi, name) :: rest =>
      if (lo <=? id) && (id <=? hi) then Some name else first_match rest id
  end.

Definition classify_by_table (id : Z) : string :=
  match first_match icon_table id with
  | Some name => name
  | None => "unknown"
  end.

End Classifier.

(** ** Text and layout helpers *)

Module Layout.

(** Position of the first [ch] in [l], counted from its head. *)
Fixpoint index_in (ch : ascii) (l : list ascii) : option nat :=
  match l with
  | [] => None
  | c :: rest =>
      if Ascii.eqb c ch then Some 0%nat
      else match index_in ch rest with
           | Some k => Some (S k)
           | None => None
           end
  end.

(** Arduino's [String::indexOf(char ch, unsigned int fromIndex)]: [-1] when
    [fromIndex >= len] or when [ch] does not occur from there on. *)
Definition indexOf (ch : ascii) (text : list ascii) (fromIndex : Z) : Z :=
  if Z.of_nat (length text) <=? fromIndex then -1
  else match index_in ch (drop (Z.to_nat fromIndex) text) with
       | Some k => fromIndex + Z.of_nat k
       | None => -1
       end.

Definition space : ascii := " "%char.

(** The [while] loop of [splitIndex]; [index] is a [uint16_t].  [None] when
    the fuel runs out. *)
Fixpoint splitIndex_loop (fuel : nat) (text : list ascii) (index : Z) : option Z :=
  match fuel with
  | O => None
  | S fuel' =>
      if (0 <=? indexOf space text index) && (index <=? Z.of_nat (length text) / 2)
      then splitIndex_loop fuel' text (u16 (indexOf space text index + 1))
      else Some index
  end.

(** [int splitIndex(String text)]: the loop, then [if (index) index--;]. *)
Definition splitIndex_fuel (fuel : nat) (text : string) : option Z :=
  match splitIndex_loop fuel (list_ascii_of_string text) 0 with
  | Some index => Some (if index =? 0 then index else u16 (index - 1))
  | None => None
  end.

Definition splitIndex (text : string) : option Z :=
  splitIndex_fuel (String.length text + 2) text.

(** The character of [text] at position [p] is a space. *)
Definition is_space (text : string) (p : Z) : Prop :=
  0 <= p /\ list_ascii_of_string text !! Z.to_nat p = Some space.

(** [int windAngle = (int)(forecast->wind_deg[0] + 22.5) / 45;
     if (windAngle > 7 || windAngle < 0) windAngle = 0;]
    The cast binds tighter than the division, which is C's integer division. *)
Definition windAngle (wind_deg : Z) : Z :=
  let windAngle := Z.quot (truncQ (inject_Z wind_deg + (45 # 2))) 45 in
  if (7 <? windAngle) || (windAngle <? 0) then 0 else windAngle.

Definition windDirs : list string := ["N"; "NE"; "E"; "SE"; "S"; "SW"; "W"; "NW"].

(** [windDirs[windAngle]]; [None] is an access outside the array. *)
Definition windDir (wind_deg : Z) : option string :=
  if windAngle wind_deg <? 0 then None
  else windDirs !! Z.to_nat (windAngle wind_deg).

(** The arrow of [drawCurrentWeather]:
    [if (lastPressure > 0 && lastPressure != pressure) { if (pressure >
    lastPressure) up else down }]. *)
Inductive Arrow := ArrowUp | ArrowDown.

Definition trend_arrow (lastPressure pressure : Q) : option Arrow :=
  if Qltb 0 lastPressure && negb (Qeq_bool lastPressure pressure)
  then if Qltb lastPressure pressure then Some ArrowUp else Some ArrowDown
  else None.

End Layout.

(** ** The JSON document of ArduinoJson *)

Module Json.

#[local] Set Warnings "-register-all".

Inductive value :=
| Null
| Bool (b : bool)
| Num (q : Q)
| Str (s : string)
| Arr (items : list value)
| Obj (members : list (string * value)).

(** [v[key]]: the member of an object; a null variant when [v] is not an
    object or has no such member. *)
Fixpoint lookup_member (key : string) (members : list (string * value)) : value :=
  match members with
  | [] => Null
  | (k, v) :: rest => if String.eqb k key then v else lookup_member key rest
  end.

Definition member (key : string) (v : value) : value :=
  match v with
  | Obj members => lookup_member key members
  | _ => Null
  end.

(** [v[i]]: the element of an array; a null variant when [v] is not an array
    or is shorter. *)
Definition element (i : nat) (v : value) : value :=
  match v with
  | Arr items => nth i items Null
  | _ => Null
  end.

End Json.

(** ** What the vendor libraries and the settings tab provide *)

Inductive Font := Font2 | FontSmall | FontLarge.

Record Platform := {
  (** [tft.textWidth(s)] under the font in use. *)
  textWidth : Font -> string -> Z;
  (** [String(x, 0)]: a float printed with no decimals. *)
  floatStr0 : Q -> string;
  (** [TIMEZONE.toLocal(t, &tz1_Code)]. *)
  toLocal : Z -> Z;
  (** TimeLib's [year], [month], [day] of a timestamp. *)
  year : Z -> Z;
  month : Z -> Z;
  day : Z -> Z;
  (** [LittleFS.exists(path)]. *)
  fsExists : string -> bool;
  (** [units] of the settings tab. *)
  units : string;
  (** [moon_phase(y, m, d, h, &ip)]: the icon index and [ip]. *)
  moon_phase : Z -> Z -> Z -> Z -> Z * Z;
  (** [moonPhase[ip]]. *)
  moonPhase : Z -> string;
  (** ArduinoJson's number read from a value that is neither null nor a
      number (a boolean, a string holding digits, an array, an object). *)
  jsonCoerce : Json.value -> Q;
  (** ArduinoJson's [as<String>()] of a value that is neither null nor a
      string: its JSON text. *)
  jsonText : Json.value -> string
}.

Module Convert.

(** A variant read as a number: [0] for a null variant (a missing member),
    the number itself, and the library's coercion otherwise. *)
Definition as_Q (P : Platform) (v : Json.value) : Q :=
  match v with
  | Json.Null => 0%Q
  | Json.Num q => q
  | _ => jsonCoerce P v
  end.

(** A variant read as an integer type with range [lo..hi]: the number
    truncated when it fits, [0] otherwise. *)
Definition as_int (P : Platform) (lo hi : Z) (v : Json.value) : Z :=
  let q := as_Q P v in
  if Qle_bool (inject_Z lo) q && Qle_bool q (inject_Z hi) then truncQ q else 0.

Definition as_float (P : Platform) (v : Json.value) : Q := as_Q P v.
Definition as_u8 (P : Platform) := as_int P 0 255.
Definition as_u16 (P : Platform) := as_int P 0 65535.
Definition as_u32 (P : Platform) := as_int P 0 4294967295.
Definition as_i32 (P : Platform) := as_int P (-2147483648) 2147483647.

(** [v.as<String>()]: the string itself, ["null"] for a null variant. *)
Definition as_String (P : Platform) (v : Json.value) : string :=
  match v with
  | Json.Str s => s
  | Json.Null => "null"
  | _ => jsonText P v
  end.

End Convert.

(** ** The reverse-geocoding cache *)

Module Location.

(** The initial value of [static String lastValidLocation]. *)
Definition default_location : string := "Envigado, Colombia".

(** [String getLocationName(String lat, String lon)], given the status of
    the GET and the document read from its body (null when the body does not
    parse).  The result is the new value of [lastValidLocation], which is
    also what the function returns. *)
Definition getLocationName (P : Platform) (lastValidLocation : string)
    (httpCode : Z) (doc : Json.value) : string :=
  if httpCode =? 200 then
    let city := Convert.as_String P (Json.member "city" doc) in
    let city :=
      if String.eqb city "null" || String.eqb city ""
      then Convert.as_String P (Json.member "locality" doc)
      else city in
    let country := Convert.as_String P (Json.member "countryName" doc) in
    if negb (String.eqb city "null") && negb (String.eqb country "null")
       && negb (String.eqb city "")
    then city +:+ ", " +:+ country
    else lastValidLocation
  else lastValidLocation.

(** A run of lookups, each given by its status and document. *)
Fixpoint lookups (P : Platform) (cache : string) (rs : list (Z * Json.value)) : string :=
  match rs with
  | [] => cache
  | (code, doc) :: rest => lookups P (getLocationName P cache code doc) rest
  end.

End Location.

(** ** The forecast object and the calls that reach the display *)

(** The fields of the OpenWeather library's [OW_forecast] that the sketch
    uses.  Each array has [MAX_DAYS * 8 = 40] slots; [float]s are rationals,
    the integer fields hold values of their C type ([uint32_t] for [sunrise],
    [sunset] and [dt], [uint16_t] for [id] and [wind_deg], [uint8_t] for
    [humidity] and [clouds_all]). *)
Record OW_forecast := {
  city_name : string;
  sunrise : Z;
  sunset : Z;
  dt : list Z;
  temp : list Q;
  temp_min : list Q;
  temp_max : list Q;
  pressure : list Q;
  humidity : list Z;
  id : list Z;
  clouds_all : list Z;
  wind_speed : list Q;
  wind_deg : list Z
}.

Definition slots : nat := 40.

(** The object as the library's member initialisers leave it ([= 0] and
    [= { 0 }] on every numeric member). *)
Definition OW_forecast_zero : OW_forecast := {|
  city_name := "";
  sunrise := 0;
  sunset := 0;
  dt := replicate slots 0;
  temp := replicate slots 0%Q;
  temp_min := replicate slots 0%Q;
  temp_max := replicate slots 0%Q;
  pressure := replicate slots 0%Q;
  humidity := replicate slots 0;
  id := replicate slots 0;
  clouds_all := replicate slots 0;
  wind_speed := replicate slots 0%Q;
  wind_deg := replicate slots 0
|}.

(** Reading [a[i]]. *)
Definition rdZ (a : list Z) (i : nat) : Z := nth i a 0.
Definition rdQ (a : list Q) (i : nat) : Q := nth i a 0%Q.

(** A call that puts something on the display. *)
Inductive DrawCmd :=
| FillScreen
| DrawString (text : string) (x y : Z)
| DrawBmp (path : string) (x y : Z)
| DrawFastHLine (x y w : Z)
| DrawProgressBar (x y w h percentage : Z).

(** The process-wide state of the sketch together with the display. *)
Record Globals := {
  booted : bool;
  lastPressure : Q;
  lastValidLocation : string;
  screen : list DrawCmd
}.

(** ** Time and number formatting *)

Module Fmt.

(** [String(n)] of an integer. *)
Definition intStr (n : Z) : string :=
  DecimalString.NilZero.string_of_int (Z.to_int n).

(** TimeLib's [hour], [minute] and [weekday] (Sunday is day 1) of a
    timestamp.  They read the fields that [breakTime] computes from
    [(uint32_t) t]: seconds, then minutes ([/ 60]), hours ([/ 60]) and days
    ([/ 24]) since the epoch. *)
Definition hour (t : Z) : Z := (t mod 4294967296 / 3600) mod 24.
Definition minute (t : Z) : Z := (t mod 4294967296 / 60) mod 60.
Definition weekday (t : Z) : Z := ((t mod 4294967296 / 86400) + 4) mod 7 + 1.

(** TimeLib's [dayShortStr] and [monthShortStr]. *)
Definition dayShortStr (d : Z) : string :=
  nth (Z.to_nat d) ["Err"; "Sun"; "Mon"; "Tue"; "Wed"; "Thu"; "Fri"; "Sat"] "".

Definition monthShortStr (m : Z) : string :=
  nth (Z.to_nat m)
    ["Err"; "Jan"; "Feb"; "Mar"; "Apr"; "May"; "Jun"; "Jul"; "Aug"; "Sep";
     "Oct"; "Nov"; "Dec"] "".

(** [String::toUpperCase]. *)
Definition upper_char (c : ascii) : ascii :=
  let n := nat_of_ascii c in
  if (97 <=? n)%nat && (n <=? 122)%nat then ascii_of_nat (n - 32) else c.

Fixpoint toUpperCase (s : string) : string :=
  match s with
  | EmptyString => EmptyString
  | String c rest => String (upper_char c) (toUpperCase rest)
  end.

(** [String strTime(time_t unixTime)]: local ["HH:MM"]. *)
Definition strTime (P : Platform) (unixTime : Z) : string :=
  let local_time := toLocal P unixTime in
  (if hour local_time <? 10 then "0" else "") +:+ intStr (hour local_time)
  +:+ ":" +:+
  (if minute local_time <? 10 then "0" else "") +:+ intStr (minute local_time).

(** [text.substring(index)]; an index of [-1] is past the end as an
    [unsigned int], which gives the empty string. *)
Definition substring_from (index : Z) (text : string) : string :=
  if index <? 0 then ""
  else string_of_list_ascii (drop (Z.to_nat index) (list_ascii_of_string text)).

(** [int rightOffset(String text, String sub)] for a one-character [sub]. *)
Definition rightOffset (P : Platform) (f : Font) (text : string) (sub : ascii) : Z :=
  let index := Layout.indexOf sub (list_ascii_of_string text) 0 in
  textWidth P f (substring_from index text).

End Fmt.

(** ** The panels *)

Module Panels.

(** The up and down arrows (U+2191, U+2193) as the UTF-8 bytes of the source
    file. *)
Definition arrow_up : string :=
  String (ascii_of_nat 226) (String (ascii_of_nat 134) (String (ascii_of_nat 145) "")).
Definition arrow_down : string :=
  String (ascii_of_nat 226) (String (ascii_of_nat 134) (String (ascii_of_nat 147) "")).

(** [void drawProgress(uint8_t percentage, String text)]. *)
Definition drawProgress (percentage : Z) (text : string) : list DrawCmd :=
  [ DrawString text 120 260; DrawProgressBar 10 269 (240 - 20) 15 percentage ].

(** [void drawSeparator(uint16_t y)]. *)
Definition drawSeparator (y : Z) : list DrawCmd :=
  [ DrawFastHLine 10 y (240 - 2 * 10) ].

(** The trend arrow next to the pressure text. *)
Definition drawTrend (P : Platform) (lastPressure : Q) (f : OW_forecast)
    (pressureText : string) : list DrawCmd :=
  match Layout.trend_arrow lastPressure (rdQ (pressure f) 0) with
  | Some Layout.ArrowUp =>
      [ DrawString arrow_up (230 - textWidth P FontSmall pressureText - 5) 136 ]
  | Some Layout.ArrowDown =>
      [ DrawString arrow_down (230 - textWidth P FontSmall pressureText - 5) 136 ]
  | None => []
  end.

(** The path of the wind bitmap, ["/wind/" + windDirs[windAngle] + ".bmp"]. *)
Definition windPath (f : OW_forecast) : string :=
  "/wind/" +:+
  (match Layout.windDir (rdZ (wind_deg f) 0) with Some d => d | None => "" end)
  +:+ ".bmp".

(** [void drawCurrentWeather()]. *)
Definition drawCurrentWeather (P : Platform) (now : Z) (lastPressure : Q)
    (f : OW_forecast) : list DrawCmd :=
  let weatherIcon :=
    Classifier.getMeteoconIcon now (sunrise f) (sunset f) (rdZ (id f) 0) true in
  let metric := String.eqb (units P) "metric" in
  let windSpeedText :=
    floatStr0 P (rdQ (wind_speed f) 0) +:+ (if metric then " m/s" else " mph") in
  let pressureText := floatStr0 P (rdQ (pressure f) 0) +:+ " hPa" in
  let path := windPath f in
  [ DrawBmp ("/icon/" +:+ weatherIcon +:+ ".bmp") 0 53;
    DrawString (Classifier.legend (rdZ (id f) 0)) 230 75;
    DrawString (if metric then "oC" else "oF") 237 95;
    DrawString windSpeedText 124 136;
    DrawString pressureText 230 136 ]
  ++ drawTrend P lastPressure f pressureText
  ++ (if fsExists P path then [ DrawBmp path 101 86 ] else [])
  ++ [ DrawBmp path 101 86 ]
  ++ drawSeparator 153.

(** The weekday label of a forecast column:
    [dayShortStr(weekday(forecast->dt[dayIndex]))], upper-cased. *)
Definition dayName (f : OW_forecast) (dayIndex : nat) : string :=
  Fmt.toUpperCase (Fmt.dayShortStr (Fmt.weekday (rdZ (dt f) dayIndex))).

(** The icon of a forecast column: [getMeteoconIcon(forecast->id[dayIndex],
    false)]. *)
Definition forecastIcon (now : Z) (f : OW_forecast) (dayIndex : nat) : string :=
  Classifier.getMeteoconIcon now (sunrise f) (sunset f) (rdZ (id f) dayIndex) false.

(** [void drawForecastDetail(uint16_t x, uint16_t y, uint8_t dayIndex)]. *)
Definition drawForecastDetail (P : Platform) (now : Z) (f : OW_forecast)
    (x y : Z) (dayIndex : nat) : list DrawCmd :=
  if (40 <=? dayIndex)%nat then []
  else
    let highTemp := floatStr0 P (rdQ (temp_max f) dayIndex) in
    let lowTemp := floatStr0 P (rdQ (temp_min f) dayIndex) in
    [ DrawString (dayName f dayIndex) (x + 25) y;
      DrawString (highTemp +:+ "  " +:+ lowTemp) (x + 25) (y + 17);
      DrawBmp ("/icon50/" +:+ forecastIcon now f dayIndex +:+ ".bmp") x (y + 18) ].

(** [void drawForecast()]. *)
Definition drawForecast (P : Platform) (now : Z) (f : OW_forecast) : list DrawCmd :=
  drawForecastDetail P now f 8 171 8
  ++ drawForecastDetail P now f 66 171 16
  ++ drawForecastDetail P now f 124 171 24
  ++ drawForecastDetail P now f 182 171 32
  ++ drawSeparator (171 + 69).

(** [void drawAstronomy()]. *)
Definition drawAstronomy (P : Platform) (now : Z) (f : OW_forecast) : list DrawCmd :=
  let local_time := now in
  let '(icon, ip) :=
    moon_phase P (year P local_time) (month P local_time) (day P local_time)
      (Fmt.hour local_time) in
  let rising := Fmt.strTime P (sunrise f) +:+ " " in
  let setting := Fmt.strTime P (sunset f) +:+ " " in
  [ DrawString (moonPhase P ip) 120 319;
    DrawBmp ("/moon/moonphase_L" +:+ Fmt.intStr icon +:+ ".bmp") (120 - 30) (318 - 16 - 60);
    DrawString "Solar" 40 270;
    DrawString rising (40 + Fmt.rightOffset P FontSmall rising ":"%char) 290;
    DrawString setting (40 + Fmt.rightOffset P FontSmall setting ":"%char) 305;
    DrawString "Clouds" 195 260;
    DrawString (Fmt.intStr (rdZ (clouds_all f) 0) +:+ "%") 210 277;
    DrawString "Humidity" 195 298;
    DrawString (Fmt.intStr (rdZ (humidity f) 0) +:+ "%") 210 315 ].

(** The [if (parsed)] branch of [updateData]: clear the screen, then the
    header, the three panels and the large temperature. *)
Definition render (P : Platform) (now : Z) (lastPressure : Q) (f : OW_forecast)
  : list DrawCmd :=
  let header := city_name f +:+ " | " in
  let cityCountrySize := textWidth P Font2 header in
  let local_time := toLocal P now in
  let dateStr :=
    Fmt.monthShortStr (month P local_time) +:+ " " +:+ Fmt.intStr (day P local_time)
    +:+ " '" +:+ Fmt.substring_from 2 (Fmt.intStr (year P local_time)) in
  [ FillScreen;
    DrawString header 5 16;
    DrawString dateStr (cityCountrySize + 5) 16 ]
  ++ drawCurrentWeather P now lastPressure f
  ++ drawForecast P now f
  ++ drawAstronomy P now f
  ++ [ DrawString (floatStr0 P (rdQ (temp f) 0)) 215 95 ].

End Panels.

(** ** The refresh cycle *)

Module Refresh.

(** The loop [for (int i = 1; i <= 4; i++) { int idx = i * 8; a[idx] = g i; }]
    on one array. *)
Definition fill_days {A : Type} (g : nat -> A) (a : list A) : list A :=
  fold_left (fun a i => <[ (i * 8)%nat := g i ]> a) [1%nat; 2%nat; 3%nat; 4%nat] a.

(** The assignments of the [if (httpCode == 200)] branch, from the document
    into the forecast object. *)
Definition populate (P : Platform) (doc : Json.value) (f : OW_forecast) : OW_forecast :=
  let current := Json.member "current" doc in
  let daily := Json.member "daily" doc in
  {| city_name := city_name f;
     sunrise := Convert.as_u32 P (Json.element 0 (Json.member "sunrise" daily));
     sunset := Convert.as_u32 P (Json.element 0 (Json.member "sunset" daily));
     dt := fill_days
             (fun i => Convert.as_u32 P (Json.element i (Json.member "sunrise" daily)))
             (dt f);
     temp := <[ 0%nat := Convert.as_float P (Json.member "temperature_2m" current) ]> (temp f);
     temp_min := fill_days
             (fun i => Convert.as_float P
                         (Json.element i (Json.member "temperature_2m_min" daily)))
             (temp_min f);
     temp_max := fill_days
             (fun i => Convert.as_float P
                         (Json.element i (Json.member "temperature_2m_max" daily)))
             (temp_max f);
     pressure := <[ 0%nat := Convert.as_float P (Json.member "surface_pressure" current) ]>
                   (pressure f);
     humidity := <[ 0%nat := Convert.as_u8 P (Json.member "relative_humidity_2m" current) ]>
                   (humidity f);
     id := fill_days
             (fun i => Convert.as_u16 P (Json.element i (Json.member "weather_code" daily)))
             (<[ 0%nat := Convert.as_u16 P (Json.member "weather_code" current) ]> (id f));
     clouds_all := <[ 0%nat := Convert.as_u8 P (Json.member "cloud_cover" current) ]>
                     (clouds_all f);
     wind_speed := <[ 0%nat := Convert.as_float P (Json.member "wind_speed_10m" current) ]>
                     (wind_speed f);
     wind_deg := <[ 0%nat := u16 (Convert.as_i32 P (Json.member "wind_direction_10m" current)) ]>
                   (wind_deg f)
  |}.

(** [if (forecast->pressure[0] > 0) lastPressure = forecast->pressure[0];],
    which runs before [pressure[0]] is assigned: [f] is the object that
    [new OW_forecast] has just returned. *)
Definition saved_pressure (f : OW_forecast) (lastPressure : Q) : Q :=
  if Qltb 0 (rdQ (pressure f) 0) then rdQ (pressure f) 0 else lastPressure.

Definition with_city (f : OW_forecast) (name : string) : OW_forecast :=
  {| city_name := name; sunrise := sunrise f; sunset := sunset f; dt := dt f;
     temp := temp f; temp_min := temp_min f; temp_max := temp_max f;
     pressure := pressure f; humidity := humidity f; id := id f;
     clouds_all := clouds_all f; wind_speed := wind_speed f;
     wind_deg := wind_deg f |}.

(** What one call of [updateData] meets: the clock, the object that
    [new OW_forecast] returns, and the status and document of the two GETs. *)
Record Cycle := {
  now : Z;
  fresh : OW_forecast;
  geo : Z * Json.value;
  weather : Z * Json.value
}.

(** [void updateData()]. *)
Definition updateData (P : Platform) (c : Cycle) (g : Globals) : Globals :=
  let progress : list DrawCmd :=
    if booted g
    then (Panels.drawProgress 20 "Updating time..."
          ++ Panels.drawProgress 50 "Updating conditions...")%list
    else [] in
  let location :=
    Location.getLocationName P (lastValidLocation g) (fst (geo c)) (snd (geo c)) in
  let forecast := with_city (fresh c) location in
  if fst (weather c) =? 200 then
    let lastPressure' := saved_pressure forecast (lastPressure g) in
    let forecast := populate P (snd (weather c)) forecast in
    {| booted := false;
       lastPressure := lastPressure';
       lastValidLocation := location;
       screen := screen g ++ progress ++ Panels.render P (now c) lastPressure' forecast |}
  else
    {| booted := false;
       lastPressure := lastPressure g;
       lastValidLocation := location;
       screen := screen g ++ progress |}.

(** Successive refresh cycles. *)
Definition run (P : Platform) (cs : list Cycle) (g : Globals) : Globals :=
  fold_left (fun g c => updateData P c g) cs g.

(** The state at power-up: [booted = true], [lastPressure = 0], the default
    location, nothing drawn by the refresh yet. *)
Definition initial : Globals :=
  {| booted := true; lastPressure := 0%Q;
     lastValidLocation := Location.default_location; screen := [] |}.

End Refresh.

(** ** Concrete platforms and documents for evaluating the model *)

Module Bench.

(** A platform with a fixed-width font, floats printed truncated, local time
    [offset] seconds ahead of UTC, and no moon. *)
Definition platform (offset : Z) : Platform := {|
  textWidth := fun _ s => 8 * Z.of_nat (String.length s);
  floatStr0 := fun q => Fmt.intStr (truncQ q);
  toLocal := fun t => t + offset;
  year := fun _ => 2024;
  month := fun _ => 1;
  day := fun _ => 1;
  fsExists := fun _ => true;
  units := "metric";
  moon_phase := fun _ _ _ _ => (0, 0);
  moonPhase := fun _ => "New";
  jsonCoerce := fun _ => 0%Q;
  jsonText := fun _ => ""
|}.

Definition utc : Platform := platform 0.

(** A forecast document whose current pressure is [p] and whose other
    fields are those of a clear day. *)
Definition weather_doc (p : Q) : Json.value :=
  Json.Obj
    [ ("current",
       Json.Obj [ ("temperature_2m", Json.Num 21); ("relative_humidity_2m", Json.Num 60);
                  ("cloud_cover", Json.Num 10); ("surface_pressure", Json.Num p);
                  ("weather_code", Json.Num 0); ("wind_speed_10m", Json.Num 3);
                  ("wind_direction_10m", Json.Num 90) ]);
      ("daily",
       Json.Obj [ ("weather_code", Json.Arr (map Json.Num [0; 1; 2; 3; 61]%Q));
                  ("temperature_2m_max", Json.Arr (map Json.Num [25; 26; 27; 28; 29]%Q));
                  ("temperature_2m_min", Json.Arr (map Json.Num [15; 16; 17; 18; 19]%Q));
                  ("sunrise", Json.Arr (map Json.Num
                     [1704106800; 1704193200; 1704279600; 1704366000; 1704452400]%Q));
                  ("sunset", Json.Arr (map Json.Num
                     [1704150000; 1704236400; 1704322800; 1704409200; 1704495600]%Q)) ]) ].

(** A refresh at time [t] in which the geocoder is down, the forecast
    request answers [code] with [doc], and [new] returns the object as the
    library initialises it. *)
Definition cycle (t : Z) (code : Z) (doc : Json.value) : Refresh.Cycle :=
  {| Refresh.now := t; Refresh.fresh := OW_forecast_zero;
     Refresh.geo := (-1, Json.Null); Refresh.weather := (code, doc) |}.

(** Local time ten hours ahead of UTC. *)
Definition east : Platform := platform 36000.

(** Sunday 2023-12-31 20:00:00 UTC, which is Monday 06:00 ten hours east. *)
Definition sunday_evening_utc : Z := 1704052800.

(** A forecast document whose first forecast day has its sunrise then. *)
Definition early_sunrise_doc : Json.value :=
  Json.Obj
    [ ("daily",
       Json.Obj [ ("sunrise", Json.Arr (map Json.Num
                     [1703966400; 1704052800; 1704139200; 1704225600; 1704312000]%Q)) ]) ].

(** A geocoder answer with a city and an empty country name. *)
Definition no_country_doc : Json.value :=
  Json.Obj [ ("city", Json.Str "Paris"); ("countryName", Json.Str "") ].

(** The state after the first refresh, which found a pressure of 1010. *)
Definition after_first : Globals :=
  Refresh.updateData utc (cycle 1704110000 200 (weather_doc 1010)) Refresh.initial.

(** [doc] with the member [key] of its "current" object removed. *)
Definition without_current (key : string) (doc : Json.value) : Json.value :=
  match doc with
  | Json.Obj ms =>
      Json.Obj
        (map (fun '(k, v) =>
                match v with
                | Json.Obj cur =>
                    if String.eqb k "current"
                    then (k, Json.Obj (List.filter (fun kv => negb (String.eqb (fst kv) key)) cur))
                    else (k, v)
                | _ => (k, v)
                end) ms)
  | _ => doc
  end.

(** A document without the cloud cover, which the URL of [updateData] does
    not ask for. *)
Definition no_cloud_doc : Json.value :=
  without_current "cloud_cover" (weather_doc 1015).

End Bench.

(** ** The properties as the specification words them *)

Module Spec.


(** [r] is the mid-split point of [text]: the last space at or before the
    midpoint [length / 2], and [0] when no space occurs at or before it. *)
Definition mid_split (text : string) (r : Z) : Prop :=
  let mid := Z.of_nat (String.length text) / 2 in
  (Layout.is_space text r /\ r <= mid /\
   forall q, Layout.is_space text q -> q <= mid -> q <= r)
  \/ ((forall q, Layout.is_space text q -> mid < q) /\ r = 0).

(** The weekday label of a forecast day taken from its sunrise timestamp
    converted to local time. *)
Definition dayName_local (P : Platform) (f : OW_forecast) (dayIndex : nat) : string :=
  Fmt.toUpperCase (Fmt.dayShortStr (Fmt.weekday (toLocal P (rdZ (dt f) dayIndex)))).

(** The trend of the pressure against the previous reading ([0] stands for
    no previous reading). *)
Definition trend (previous current : Q) : option Layout.Arrow :=
  if Qeq_bool previous 0 then None
  else match Qcompare current previous with
       | Gt => Some Layout.ArrowUp
       | Lt => Some Layout.ArrowDown
       | Eq => None
       end.

(** A drawing call that shows a trend arrow. *)
Definition is_arrow (c : DrawCmd) : bool :=
  match c with
  | DrawString s _ _ => String.eqb s Panels.arrow_up || String.eqb s Panels.arrow_down
  | _ => false
  end.

(** A drawing call that shows a bitmap. *)
Definition is_bmp (c : DrawCmd) : bool :=
  match c with
  | DrawBmp _ _ _ => true
  | _ => false
  end.

(** The fields that the specification requires of a forecast document. *)
Inductive Day := Day1 | Day2 | Day3 | Day4.

Definition day_number (d : Day) : nat :=
  match d with Day1 => 1 | Day2 => 2 | Day3 => 3 | Day4 => 4 end.

Inductive Field :=
| Temperature | Humidity | CloudCover | Pressure | WindSpeed | WindDirection
| WeatherCode | Sunrise | Sunset
| DayMax (d : Day) | DayMin (d : Day) | DayCode (d : Day) | DaySunrise (d : Day).

(** Where [updateData] reads a field in the document. *)
Definition field_source (doc : Json.value) (fld : Field) : Json.value :=
  let current := Json.member "current" doc in
  let daily := Json.member "daily" doc in
  match fld with
  | Temperature => Json.member "temperature_2m" current
  | Humidity => Json.member "relative_humidity_2m" current
  | CloudCover => Json.member "cloud_cover" current
  | Pressure => Json.member "surface_pressure" current
  | WindSpeed => Json.member "wind_speed_10m" current
  | WindDirection => Json.member "wind_direction_10m" current
  | WeatherCode => Json.member "weather_code" current
  | Sunrise => Json.element 0 (Json.member "sunrise" daily)
  | Sunset => Json.element 0 (Json.member "sunset" daily)
  | DayMax d => Json.element (day_number d) (Json.member "temperature_2m_max" daily)
  | DayMin d => Json.element (day_number d) (Json.member "temperature_2m_min" daily)
  | DayCode d => Json.element (day_number d) (Json.member "weather_code" daily)
  | DaySunrise d => Json.element (day_number d) (Json.member "sunrise" daily)
  end.

(** Where the panels read it in the forecast object. *)
Definition field_stored (f : OW_forecast) (fld : Field) : Q :=
  match fld with
  | Temperature => rdQ (temp f) 0
  | Humidity => inject_Z (rdZ (humidity f) 0)
  | CloudCover => inject_Z (rdZ (clouds_all f) 0)
  | Pressure => rdQ (pressure f) 0
  | WindSpeed => rdQ (wind_speed f) 0
  | WindDirection => inject_Z (rdZ (wind_deg f) 0)
  | WeatherCode => inject_Z (rdZ (id f) 0)
  | Sunrise => inject_Z (sunrise f)
  | Sunset => inject_Z (sunset f)
  | DayMax d => rdQ (temp_max f) (day_number d * 8)
  | DayMin d => rdQ (temp_min f) (day_number d * 8)
  | DayCode d => inject_Z (rdZ (id f) (day_number d * 8))
  | DaySunrise d => inject_Z (rdZ (dt f) (day_number d * 8))
  end.

End Spec.

(** ** The rest of the sketch: the main loop, the clock and the helpers *)

Module Sketch.

(** Conversion to [unsigned long] and to [long] (32 bits on the ESP32). *)
Definition u32 (z : Z) : Z := z mod 4294967296.
Definition s32 (z : Z) : Z := (z + 2147483648) mod 4294967296 - 2147483648.

(** Arduino's [String::substring(unsigned int left, unsigned int right)]:
    the bounds are swapped when [left > right], the result is empty when
    [left >= len], and [right] is cut down to [len]. *)
Definition substring (left right : Z) (text : string) : string :=
  let left := u32 left in
  let right := u32 right in
  let lo := if right <? left then right else left in
  let hi := if right <? left then left else right in
  let len := Z.of_nat (String.length text) in
  if len <=? lo then ""
  else
    let hi := if len <? hi then len else hi in
    string_of_list_ascii
      (take (Z.to_nat (hi - lo)) (drop (Z.to_nat lo) (list_ascii_of_string text))).

(** [int leftOffset(String text, String sub)] for a one-character [sub]:
    the width of [text.substring(0, index)]. *)
Definition leftOffset (P : Platform) (f : Font) (text : string) (sub : ascii) : Z :=
  let index := Layout.indexOf sub (list_ascii_of_string text) 0 in
  textWidth P f (substring 0 index text).

(** The day of month of a [dt_txt] entry: [dt_txt[i].substring(8, 10)]. *)
Definition day_of_txt (s : string) : string := substring 8 10 s.

(** The [for] loop of [getNextDayIndex], entered with [index] and with
    [9 - index] rounds left. *)
Fixpoint nextDay_scan (today : string) (dt_txt : list string) (index rounds : nat) : nat :=
  match rounds with
  | O => index
  | S rounds' =>
      if String.eqb (day_of_txt (nth index dt_txt "")) today
      then nextDay_scan today dt_txt (S index) rounds'
      else index
  end.

(** [int getNextDayIndex(void)], on the array [forecast->dt_txt]. *)
Definition getNextDayIndex (dt_txt : list string) : nat :=
  nextDay_scan (day_of_txt (nth 0 dt_txt "")) dt_txt 0 9.

(** [void drawTime()]: the clock digits and the separator under them. *)
Definition drawTime (P : Platform) (now : Z) : list DrawCmd :=
  let local_time := toLocal P now in
  let timeNow :=
    (if Fmt.hour local_time <? 10 then "0" else "") +:+ Fmt.intStr (Fmt.hour local_time)
    +:+ ":" +:+
    (if Fmt.minute local_time <? 10 then "0" else "") +:+ Fmt.intStr (Fmt.minute local_time) in
  [ DrawString timeNow 120 53 ] ++ Panels.drawSeparator 51.

(** The state of [loop]: the globals of the refresh, [long
    lastDownloadUpdate] and [lastMinute] of the time tab. *)
Record LoopState := {
  globals : Globals;
  lastDownloadUpdate : Z;
  lastMinute : Z
}.

(** What one pass of [loop] meets: the readings of [millis()] (in the test
    and in the assignment), the readings of [minute()] (likewise), the clock
    that [drawTime] reads, and what [updateData] meets. *)
Record Pass := {
  millis_test : Z;
  millis_set : Z;
  minute_test : Z;
  minute_set : Z;
  clock : Z;
  cycle : Refresh.Cycle
}.

(** [booted || (millis() - lastDownloadUpdate > 1000UL * UPDATE_INTERVAL_SECS)],
    in [unsigned long] arithmetic. *)
Definition refresh_due (booted : bool) (millis lastDownloadUpdate UPDATE_INTERVAL_SECS : Z)
  : bool :=
  booted || (u32 (1000 * UPDATE_INTERVAL_SECS) <? u32 (millis - lastDownloadUpdate)).

(** The first [if] of [loop]. *)
Definition loop_refresh (P : Platform) (UPDATE_INTERVAL_SECS : Z) (p : Pass)
    (s : LoopState) : LoopState :=
  if refresh_due (booted (globals s)) (millis_test p) (lastDownloadUpdate s)
       UPDATE_INTERVAL_SECS
  then {| globals := Refresh.updateData P (cycle p) (globals s);
          lastDownloadUpdate := s32 (millis_set p);
          lastMinute := lastMinute s |}
  else s.

(** The second [if] of [loop]: [booted || minute() != lastMinute]. *)
Definition loop_clock (P : Platform) (p : Pass) (s : LoopState) : LoopState :=
  if booted (globals s) || negb (minute_test p =? lastMinute s)
  then {| globals :=
            {| booted := booted (globals s);
               lastPressure := lastPressure (globals s);
               lastValidLocation := lastValidLocation (globals s);
               screen := screen (globals s) ++ drawTime P (clock p) |};
          lastDownloadUpdate := lastDownloadUpdate s;
          lastMinute := minute_set p |}
  else s.

(** [void loop()]: the two steps, then [booted = false]. *)
Definition loop (P : Platform) (UPDATE_INTERVAL_SECS : Z) (p : Pass) (s : LoopState)
  : LoopState :=
  let s := loop_clock P p (loop_refresh P UPDATE_INTERVAL_SECS p s) in
  {| globals :=
       {| booted := false;
          lastPressure := lastPressure (globals s);
          lastValidLocation := lastValidLocation (globals s);
          screen := screen (globals s) |};
     lastDownloadUpdate := lastDownloadUpdate s;
     lastMinute := lastMinute s |}.

End Sketch.

(** ** Predicates used to state what the sketch keeps *)

Module Shape.

(** Every array of the forecast object has its 40 slots. *)
Definition wf_forecast (f : OW_forecast) : Prop :=
  length (dt f) = slots /\ length (temp f) = slots /\ length (temp_min f) = slots
  /\ length (temp_max f) = slots /\ length (pressure f) = slots
  /\ length (humidity f) = slots /\ length (id f) = slots
  /\ length (clouds_all f) = slots /\ length (wind_speed f) = slots
  /\ length (wind_deg f) = slots.

(** The value that [updateData] assigns to a required field, from the
    variant it reads. *)
Definition field_value (P : Platform) (fld : Spec.Field) (v : Json.value) : Q :=
  match fld with
  | Spec.Temperature | Spec.Pressure | Spec.WindSpeed
  | Spec.DayMax _ | Spec.DayMin _ => Convert.as_float P v
  | Spec.Humidity | Spec.CloudCover => inject_Z (Convert.as_u8 P v)
  | Spec.WindDirection => inject_Z (u16 (Convert.as_i32 P v))
  | Spec.WeatherCode | Spec.DayCode _ => inject_Z (Convert.as_u16 P v)
  | Spec.Sunrise | Spec.Sunset | Spec.DaySunrise _ => inject_Z (Convert.as_u32 P v)
  end.

(** A progress bar. *)
Definition is_progress (c : DrawCmd) : bool :=
  match c with
  | DrawProgressBar _ _ _ _ _ => true
  | _ => false
  end.

(** A decimal digit. *)
Definition is_digit (c : ascii) : bool :=
  (48 <=? nat_of_ascii c)%nat && (nat_of_ascii c <=? 57)%nat.

(** The ten bitmaps that [getMeteoconIcon] can name. *)
Definition icon_names : list string :=
  [ "clear-day"; "clear-night"; "partly-cloudy-day"; "partly-cloudy-night";
    "fog"; "drizzle"; "rain"; "snow"; "thunderstorm"; "unknown" ].

(** The labels that a forecast column can carry. *)
Definition day_labels : list string :=
  [ "SUN"; "MON"; "TUE"; "WED"; "THU"; "FRI"; "SAT" ].

End Shape.

(** ** A text that is too long for a 16-bit counter *)

Module Samples.

(** 65535 letters, then " b": the first space is at index 65535. *)
Definition long_text : string :=
  string_of_list_ascii
    (replicate (Z.to_nat 65535) "a"%char ++ [ " "%char; "b"%char ]).

(** A forecast object with its 40 slots whose memory holds left-over values
    everywhere except in [pressure]. *)
Definition stale_object : OW_forecast := {|
  city_name := "left over";
  sunrise := 77;
  sunset := 77;
  dt := replicate slots 77;
  temp := replicate slots 77%Q;
  temp_min := replicate slots 77%Q;
  temp_max := replicate slots 77%Q;
  pressure := replicate slots 0%Q;
  humidity := replicate slots 77;
  id := replicate slots 77;
  clouds_all := replicate slots 77;
  wind_speed := replicate slots 77%Q;
  wind_deg := replicate slots 77
|}.

(** A forecast document whose first forecast day carries the code 1000. *)
Definition night_code_doc : Json.value :=
  Json.Obj
    [ ("daily",
       Json.Obj [ ("weather_code", Json.Arr (map Json.Num [0; 1000; 2; 3; 61]%Q)) ]) ].

End Samples.

(** ** What a refresh has to show of a document *)

Module Expect.

(** The value that [updateData] reads for a field that is a [float]. *)
Definition doc_float (P : Platform) (doc : Json.value) (fld : Spec.Field) : Q :=
  Convert.as_float P (Spec.field_source doc fld).

(** The value that [updateData] reads for a field that is an integer. *)
Definition doc_int (P : Platform) (doc : Json.value) (fld : Spec.Field) : Z :=
  match fld with
  | Spec.Humidity | Spec.CloudCover => Convert.as_u8 P (Spec.field_source doc fld)
  | Spec.WindDirection => u16 (Convert.as_i32 P (Spec.field_source doc fld))
  | Spec.WeatherCode | Spec.DayCode _ => Convert.as_u16 P (Spec.field_source doc fld)
  | _ => Convert.as_u32 P (Spec.field_source doc fld)
  end.

(** The left edge of the column of a forecast day. *)
Definition column_x (d : Spec.Day) : Z :=
  match d with Spec.Day1 => 8 | Spec.Day2 => 66 | Spec.Day3 => 124 | Spec.Day4 => 182 end.

(** The column of a forecast day: its weekday label, its maximum and minimum
    temperatures and its icon, all from the values read in the document. *)
Definition column (P : Platform) (now : Z) (doc : Json.value) (d : Spec.Day)
  : list DrawCmd :=
  [ DrawString
      (Fmt.toUpperCase (Fmt.dayShortStr (Fmt.weekday (doc_int P doc (Spec.DaySunrise d)))))
      (column_x d + 25) 171;
    DrawString
      (floatStr0 P (doc_float P doc (Spec.DayMax d)) +:+ "  "
       +:+ floatStr0 P (doc_float P doc (Spec.DayMin d)))
      (column_x d + 25) (171 + 17);
    DrawBmp
      ("/icon50/"
       +:+ Classifier.getMeteoconIcon now (doc_int P doc Spec.Sunrise)
             (doc_int P doc Spec.Sunset) (doc_int P doc (Spec.DayCode d)) false
       +:+ ".bmp")
      (column_x d) (171 + 18) ].

(** The drawing calls in which the required fields of the document reach
    the display: the clearing of the screen, then for the current conditions
    the icon and the word of the code, the wind speed, the pressure, the wind
    direction, the times of sunrise and sunset, the cloud cover, the humidity
    and the large temperature, and the four forecast columns. *)
Definition required_draws (P : Platform) (now : Z) (doc : Json.value) : list DrawCmd :=
  let metric := String.eqb (units P) "metric" in
  let rising := Fmt.strTime P (doc_int P doc Spec.Sunrise) +:+ " " in
  let setting := Fmt.strTime P (doc_int P doc Spec.Sunset) +:+ " " in
  [ FillScreen;
    DrawBmp
      ("/icon/"
       +:+ Classifier.getMeteoconIcon now (doc_int P doc Spec.Sunrise)
             (doc_int P doc Spec.Sunset) (doc_int P doc Spec.WeatherCode) true
       +:+ ".bmp") 0 53;
    DrawString (Classifier.legend (doc_int P doc Spec.WeatherCode)) 230 75;
    DrawString
      (floatStr0 P (doc_float P doc Spec.WindSpeed) +:+ (if metric then " m/s" else " mph"))
      124 136;
    DrawString (floatStr0 P (doc_float P doc Spec.Pressure) +:+ " hPa") 230 136;
    DrawBmp
      ("/wind/"
       +:+ (match Layout.windDir (doc_int P doc Spec.WindDirection) with
            | Some dir => dir
            | None => ""
            end)
       +:+ ".bmp") 101 86;
    DrawString rising (40 + Fmt.rightOffset P FontSmall rising ":"%char) 290;
    DrawString setting (40 + Fmt.rightOffset P FontSmall setting ":"%char) 305;
    DrawString (Fmt.intStr (doc_int P doc Spec.CloudCover) +:+ "%") 210 277;
    DrawString (Fmt.intStr (doc_int P doc Spec.Humidity) +:+ "%") 210 315;
    DrawString (floatStr0 P (doc_float P doc Spec.Temperature)) 215 95 ]
  ++ column P now doc Spec.Day1 ++ column P now doc Spec.Day2
  ++ column P now doc Spec.Day3 ++ column P now doc Spec.Day4.

End Expect.

(** ** The loop of [splitIndex], as predicates on its counter *)

Module Inv.

(** What holds of [index] each time the loop tests its condition: it is
    within the text, it is 0 or just past a space, and once it has passed the
    midpoint no space lies between the midpoint and that space. *)
Definition split_inv (text : list ascii) (index : Z) : Prop :=
  let len := Z.of_nat (length text) in
  let mid := len / 2 in
  0 <= index <= len
  /\ (index = 0 \/ text !! Z.to_nat (index - 1) = Some Layout.space)
  /\ (mid < index ->
      forall q, mid <= q < index - 1 -> ~ text !! Z.to_nat q = Some Layout.space).

(** What holds of [index] when the loop is left: it is past the midpoint, or
    no space is left from it on. *)
Definition split_post (text : list ascii) (r : Z) : Prop :=
  let mid := Z.of_nat (length text) / 2 in
  split_inv text r
  /\ (mid < r \/ forall q, r <= q -> ~ text !! Z.to_nat q = Some Layout.space).

End Inv.

(** * Verification *)

(** ** Machine integers *)

Lemma u16_range z : 0 <= u16 z < 65536.
Proof. unfold u16. apply Z.mod_pos_bound. lia. Qed.

Lemma u16_small z : 0 <= z < 65536 -> u16 z = z.
Proof. intros H. unfold u16. apply Z.mod_small. exact H. Qed.

(** Settle every integer test of the goal from the hypotheses. *)
Ltac settle_tests :=
  repeat match goal with
  | |- context [ (?a =? ?b)%Z ] =>
      first [ rewrite (proj2 (Z.eqb_eq a b)) by lia
            | rewrite (proj2 (Z.eqb_neq a b)) by lia ]
  | |- context [ (?a <=? ?b)%Z ] =>
      first [ rewrite (proj2 (Z.leb_le a b)) by lia
            | rewrite (proj2 (Z.leb_gt a b)) by lia ]
  | |- context [ (?a <? ?b)%Z ] =>
      first [ rewrite (proj2 (Z.ltb_lt a b)) by lia
            | rewrite (proj2 (Z.ltb_ge a b)) by lia ]
  end.

(** ** The icon classifier *)

(** The codes, cut where either classifier changes its answer. *)
Lemma code_bands (c : Z) :
  c < 0 \/ c = 0 \/ 1 <= c <= 3 \/ 4 <= c <= 44 \/ c = 45 \/ 46 <= c <= 47 \/ c = 48
  \/ 49 <= c <= 50 \/ 51 <= c <= 55 \/ 56 <= c <= 60 \/ 61 <= c <= 67
  \/ 68 <= c <= 70 \/ 71 <= c <= 77 \/ 78 <= c <= 79 \/ 80 <= c <= 82
  \/ 83 <= c <= 84 \/ c = 85 \/ c = 86 \/ 87 <= c <= 94 \/ 95 <= c <= 99
  \/ 100 <= c <= 999 \/ c = 1000 \/ 1001 <= c <= 1003 \/ 1004 <= c.
Proof. lia. Qed.

Ltac by_bands c :=
  let H := fresh "Hband" in
  pose proof (code_bands c) as H;
  repeat (destruct H as [H | H]).

Lemma icon_name_is_table_lookup (c : Z) :
  Classifier.icon_name c = Classifier.classify_by_table c.
Proof.
  unfold Classifier.icon_name, Classifier.classify_by_table, Classifier.icon_table,
    Classifier.first_match.
  by_bands c; settle_tests; reflexivity.
Qed.

Lemma icon_name_nonempty (c : Z) : Classifier.icon_name c <> "".
Proof.
  unfold Classifier.icon_name.
  repeat match goal with
  | |- context [ if ?b then _ else _ ] => destruct b; [ discriminate | ]
  end.
  discriminate.
Qed.

Lemma night_adjust_forecast now1 now2 sr ss c :
  Classifier.night_adjust now1 now2 sr ss c false = c.
Proof. reflexivity. Qed.

Lemma night_adjust_cases now sr ss c today :
  0 <= c < 65536 ->
  (today = true /\ c <= 3 /\ (now < sr \/ ss < now)
   /\ Classifier.night_adjust now now sr ss c today = c + 1000)
  \/ (~ (today = true /\ c <= 3 /\ (now < sr \/ ss < now))
      /\ Classifier.night_adjust now now sr ss c today = c).
Proof.
  intros Hc. unfold Classifier.night_adjust.
  destruct today; simpl; [ | right; split; [ intros [? _]; discriminate | reflexivity ] ].
  destruct (Z.leb_spec c 3) as [H3 | H3]; simpl;
    [ | right; split; [ lia | reflexivity ] ].
  destruct (Z.ltb_spec now sr) as [H1 | H1]; simpl.
  - left. rewrite u16_small by lia. repeat split; auto.
  - destruct (Z.ltb_spec ss now) as [H2 | H2].
    + left. rewrite u16_small by lia. repeat split; auto.
    + right. split; [ lia | reflexivity ].
Qed.

Lemma icon_name_day_or_night (c : Z) :
  (c = 0 -> Classifier.icon_name c = "clear-day")
  /\ (1 <= c <= 3 -> Classifier.icon_name c = "partly-cloudy-day")
  /\ (c = 1000 -> Classifier.icon_name c = "clear-night")
  /\ (1001 <= c <= 1003 -> Classifier.icon_name c = "partly-cloudy-night")
  /\ (~ 1000 <= c <= 1003 ->
      Classifier.icon_name c <> "clear-night"
      /\ Classifier.icon_name c <> "partly-cloudy-night").
Proof.
  unfold Classifier.icon_name.
  by_bands c; settle_tests; simpl;
    (repeat split; intros; try reflexivity; try discriminate; try lia).
Qed.

(** C4, as the code has it.  The night offset of 1000 is added to the
    weather code exactly when the current conditions are classified
    ([today]), the code is in 0..3 and the time is before sunrise or after
    sunset.  With [today = false] it is never added, whatever the code and
    the clock: a forecast column gets the icon of the unshifted code, which
    is "clear-day" for 0 and "partly-cloudy-day" for 1..3 also at night (when
    the current panel gets "clear-night" and "partly-cloudy-night"), and which
    is a night icon only for a code that is itself in 1000..1003. *)
Theorem night_offset_current_panel_only :
  forall (P : Platform) (now sr ss code : Z) (today : bool) (f : OW_forecast),
    (Classifier.night_adjust now now sr ss (u16 code) today = u16 code + 1000
     <-> today = true /\ u16 code <= 3 /\ (now < sr \/ ss < now))
    /\ (Classifier.night_adjust now now sr ss (u16 code) today = u16 code
        <-> ~ (today = true /\ u16 code <= 3 /\ (now < sr \/ ss < now)))
    /\ Classifier.getMeteoconIcon now sr ss code today
       = Classifier.icon_name (Classifier.night_adjust now now sr ss (u16 code) today)
    /\ (forall now1 now2,
          Classifier.getMeteoconIcon_at now1 now2 sr ss code false
          = Classifier.icon_name (u16 code))
    /\ (forall now1 now2,
          ~ 1000 <= u16 code <= 1003 ->
          Classifier.getMeteoconIcon_at now1 now2 sr ss code false <> "clear-night"
          /\ Classifier.getMeteoconIcon_at now1 now2 sr ss code false
             <> "partly-cloudy-night")
    /\ (u16 code = 0 ->
        (forall now1 now2,
           Classifier.getMeteoconIcon_at now1 now2 sr ss code false = "clear-day")
        /\ (now < sr \/ ss < now ->
            Classifier.getMeteoconIcon now sr ss code true = "clear-night")
        /\ (sr <= now <= ss ->
            Classifier.getMeteoconIcon now sr ss code true = "clear-day"))
    /\ (1 <= u16 code <= 3 ->
        (forall now1 now2,
           Classifier.getMeteoconIcon_at now1 now2 sr ss code false = "partly-cloudy-day")
        /\ (now < sr \/ ss < now ->
            Classifier.getMeteoconIcon now sr ss code true = "partly-cloudy-night")
        /\ (sr <= now <= ss ->
            Classifier.getMeteoconIcon now sr ss code true = "partly-cloudy-day"))
    /\ List.filter Spec.is_bmp (Panels.drawForecast P now f)
       = map (fun '(x, d) =>
                DrawBmp ("/icon50/" +:+ Classifier.icon_name (u16 (rdZ (id f) d)) +:+ ".bmp")
                  x 189)
           [ (8, 8%nat); (66, 16%nat); (124, 24%nat); (182, 32%nat) ].
Proof.
  intros P now sr ss code today f.
  pose proof (u16_range code) as Hc.
  assert (Hiff :
    (Classifier.night_adjust now now sr ss (u16 code) today = u16 code + 1000
     <-> today = true /\ u16 code <= 3 /\ (now < sr \/ ss < now))
    /\ (Classifier.night_adjust now now sr ss (u16 code) today = u16 code
        <-> ~ (today = true /\ u16 code <= 3 /\ (now < sr \/ ss < now)))).
  { destruct (night_adjust_cases now sr ss (u16 code) today Hc)
      as [(Ht & H3 & Hn & E) | (Hneg & E)]; rewrite E.
    - split; split; intros H; auto; try lia.
      exfalso. apply H. auto.
    - split; split; intros H; auto; try lia.
      exfalso. apply Hneg. exact H. }
  destruct Hiff as [Hadd Hkeep].
  assert (Hcurrent : forall name_day name_night,
            Classifier.icon_name (u16 code) = name_day ->
            Classifier.icon_name (u16 code + 1000) = name_night ->
            u16 code <= 3 ->
            (now < sr \/ ss < now ->
             Classifier.getMeteoconIcon now sr ss code true = name_night)
            /\ (sr <= now <= ss ->
                Classifier.getMeteoconIcon now sr ss code true = name_day)).
  { intros name_day name_night Hday Hnight H3.
    unfold Classifier.getMeteoconIcon, Classifier.getMeteoconIcon_at.
    destruct (night_adjust_cases now sr ss (u16 code) true Hc)
      as [(_ & _ & Hn & E) | (Hneg & E)]; rewrite E.
    - split; [ intros _; exact Hnight | intros Hin; lia ].
    - split; [ intros Hout; exfalso; apply Hneg; auto | intros _; exact Hday ]. }
  destruct (icon_name_day_or_night (u16 code)) as (D0 & D13 & _ & _ & Dnot).
  destruct (icon_name_day_or_night (u16 code + 1000)) as (_ & _ & N0 & N13 & _).
  split; [ exact Hadd | ].
  split; [ exact Hkeep | ].
  split; [ reflexivity | ].
  split; [ intros; reflexivity | ].
  split; [ intros now1 now2 Hout; exact (Dnot Hout) | ].
  split.
  { intros H0. split; [ intros now1 now2; exact (D0 H0) | ].
    apply Hcurrent; [ exact (D0 H0) | apply N0; lia | lia ]. }
  split.
  { intros H13. split; [ intros now1 now2; exact (D13 H13) | ].
    apply Hcurrent; [ exact (D13 H13) | apply N13; lia | lia ]. }
  reflexivity.
Qed.

Lemma night_offset_current_panel_only_witness :
  Classifier.getMeteoconIcon 30 10 20 2 true = "partly-cloudy-night"
  /\ Classifier.getMeteoconIcon_at 30 30 10 20 2 false = "partly-cloudy-day".
Proof.
  destruct (night_offset_current_panel_only Bench.utc 30 10 20 2 true OW_forecast_zero)
    as (_ & _ & _ & _ & _ & _ & H13 & _).
  destruct H13 as (Hforecast & Hnight & _); [ vm_compute; split; discriminate | ].
  split; [ apply Hnight; right; lia | apply Hforecast ].
Defined.

(** C4, as the specification has it, fails for "every code": a forecast
    column whose stored code is 1000 gets the night icon "clear-night", in
    full daylight as at any other time. *)
Lemma forecast_code_1000_gets_night_icon :
  rdZ (id (Refresh.populate Bench.utc Samples.night_code_doc OW_forecast_zero)) 8 = 1000
  /\ Panels.forecastIcon 15
       (Refresh.populate Bench.utc Samples.night_code_doc OW_forecast_zero) 8
     = "clear-night"
  /\ Classifier.getMeteoconIcon_at 15 15 10 20 1000 false = "clear-night"
  /\ In (DrawBmp "/icon50/clear-night.bmp" 8 189)
        (Panels.drawForecast Bench.utc 15
           (Refresh.populate Bench.utc Samples.night_code_doc OW_forecast_zero)).
Proof.
  split; [ reflexivity | ].
  split; [ reflexivity | ].
  split; [ reflexivity | ].
  vm_compute. tauto.
Qed.

(** C6.  The icon classifier answers every code: its result is never empty,
    it is the name of the first range of the fixed table that contains the
    (possibly night-shifted) code, and a code that no range contains gives
    the sentinel ["unknown"]. *)
Theorem icon_classifier_total :
  forall (now1 now2 sr ss code : Z) (today : bool),
    Classifier.getMeteoconIcon_at now1 now2 sr ss code today <> ""
    /\ Classifier.getMeteoconIcon_at now1 now2 sr ss code today
       = Classifier.classify_by_table
           (Classifier.night_adjust now1 now2 sr ss (u16 code) today)
    /\ (forall name,
          Classifier.first_match Classifier.icon_table
            (Classifier.night_adjust now1 now2 sr ss (u16 code) today) = Some name ->
          Classifier.getMeteoconIcon_at now1 now2 sr ss code today = name)
    /\ (Classifier.first_match Classifier.icon_table
          (Classifier.night_adjust now1 now2 sr ss (u16 code) today) = None ->
        Classifier.getMeteoconIcon_at now1 now2 sr ss code today = "unknown").
Proof.
  intros now1 now2 sr ss code today.
  unfold Classifier.getMeteoconIcon_at.
  set (c := Classifier.night_adjust now1 now2 sr ss (u16 code) today).
  split; [ apply icon_name_nonempty | ].
  split; [ apply icon_name_is_table_lookup | ].
  rewrite icon_name_is_table_lookup. unfold Classifier.classify_by_table.
  split.
  - intros name E. rewrite E. reflexivity.
  - intros E. rewrite E. reflexivity.
Qed.

Lemma icon_classifier_total_witness :
  Classifier.getMeteoconIcon_at 0 0 10 20 100 true = "unknown".
Proof.
  apply (proj2 (proj2 (proj2 (icon_classifier_total 0 0 10 20 100 true)))).
  reflexivity.
Defined.

Lemma legend_words (code : Z) :
  0 <= code <= 99 -> In (Classifier.legend code) ["Clear"; "Cloudy"; "Rain"; "Storm"].
Proof.
  intros H. unfold Classifier.legend.
  destruct (Z.eqb_spec code 0); [ simpl; auto | ].
  destruct (Z.leb_spec code 3); [ simpl; auto | ].
  destruct (Z.leb_spec code 67); [ simpl; auto | ].
  destruct (Z.leb_spec code 99); [ simpl; auto | lia ].
Qed.

(** C7.  The condition word is a mapping of its own: on the codes 0..99 it
    is one of "Clear", "Cloudy", "Rain", "Storm" and is what the current
    panel prints for [id[0]], and its thresholds are not those of the icon
    table: two codes share an icon and differ in the word (61 and 80), and
    two codes share the word and differ in the icon (45 and 61). *)
Theorem word_classifier_differs_from_icons :
  (forall code, 0 <= code <= 99 ->
     In (Classifier.legend code) ["Clear"; "Cloudy"; "Rain"; "Storm"])
  /\ (forall P now lastPressure f,
        In (DrawString (Classifier.legend (rdZ (id f) 0)) 230 75)
           (Panels.drawCurrentWeather P now lastPressure f))
  /\ (Classifier.icon_name 61 = Classifier.icon_name 80
      /\ Classifier.legend 61 <> Classifier.legend 80)
  /\ (Classifier.legend 45 = Classifier.legend 61
      /\ Classifier.icon_name 45 <> Classifier.icon_name 61).
Proof.
  split; [ exact legend_words | ].
  split; [ intros; unfold Panels.drawCurrentWeather; simpl; auto | ].
  split; split; try reflexivity; vm_compute; discriminate.
Qed.

Lemma word_classifier_differs_from_icons_witness :
  In (Classifier.legend 95) ["Clear"; "Cloudy"; "Rain"; "Storm"].
Proof. apply (proj1 word_classifier_differs_from_icons 95). lia. Defined.

(** ** The compass sector *)

Lemma truncQ_bearing (wd : Z) :
  truncQ (inject_Z wd + (45 # 2)) = Z.quot (2 * wd + 45) 2.
Proof. unfold truncQ, Qplus, inject_Z. simpl. f_equal. lia. Qed.


(** The quotient that [windAngle] computes before it is clamped. *)
Lemma raw_sector_nonneg (b : Z) :
  0 <= b -> Z.quot (truncQ (inject_Z b + (45 # 2))) 45 = (b + 22) / 45.
Proof.
  intros Hb. rewrite truncQ_bearing.
  rewrite (Z.quot_div_nonneg (2 * b + 45) 2) by lia.
  replace ((2 * b + 45) / 2) with (b + 22)
    by (apply Z.div_unique with (r := 1); lia).
  apply Z.quot_div_nonneg; lia.
Qed.

Lemma windAngle_range (wd : Z) : 0 <= Layout.windAngle wd <= 7.
Proof.
  unfold Layout.windAngle.
  destruct (Z.ltb_spec 7 (Z.quot (truncQ (inject_Z wd + (45 # 2))) 45)); simpl; [ lia | ].
  destruct (Z.ltb_spec (Z.quot (truncQ (inject_Z wd + (45 # 2))) 45) 0); lia.
Qed.

Lemma windDir_defined (wd : Z) :
  exists name, Layout.windDir wd = Some name /\ In name Layout.windDirs.
Proof.
  pose proof (windAngle_range wd) as H. unfold Layout.windDir.
  rewrite (proj2 (Z.ltb_ge _ _)) by lia.
  assert (Hc : Layout.windAngle wd = 0 \/ Layout.windAngle wd = 1
               \/ Layout.windAngle wd = 2 \/ Layout.windAngle wd = 3
               \/ Layout.windAngle wd = 4 \/ Layout.windAngle wd = 5
               \/ Layout.windAngle wd = 6 \/ Layout.windAngle wd = 7) by lia.
  repeat (destruct Hc as [Hc | Hc]); rewrite Hc; simpl; eexists; split;
    try reflexivity; simpl; tauto.
Qed.




(** C10.  Whatever integer the snapshot holds as wind bearing, negative or
    360 and more included, the sector index lies in [0, 7] when it selects
    from the eight names, so the lookup is inside the array and the bitmap
    path is that of one of the eight directions. *)
Theorem wind_sector_in_bounds :
  forall (wd : Z) (f : OW_forecast),
    0 <= Layout.windAngle wd <= 7
    /\ (Z.to_nat (Layout.windAngle wd) < length Layout.windDirs)%nat
    /\ (exists name, Layout.windDir wd = Some name /\ In name Layout.windDirs)
    /\ (exists name, In name Layout.windDirs
                     /\ Panels.windPath f = "/wind/" +:+ name +:+ ".bmp").
Proof.
  intros wd f.
  pose proof (windAngle_range wd) as H.
  split; [ exact H | ].
  split; [ simpl; lia | ].
  split; [ apply windDir_defined | ].
  destruct (windDir_defined (rdZ (wind_deg f) 0)) as (name & E & Hin).
  exists name. split; [ exact Hin | ].
  unfold Panels.windPath. rewrite E. reflexivity.
Qed.

(** ** The split point *)

Section IndexOf.

Variable ch : ascii.

Lemma index_in_Some (l : list ascii) (k : nat) :
  Layout.index_in ch l = Some k ->
  l !! k = Some ch /\ forall j, (j < k)%nat -> l !! j <> Some ch.
Proof using Type.
  revert k. induction l as [ | c rest IH ]; intros k; simpl; [ discriminate | ].
  destruct (Ascii.eqb_spec c ch) as [-> | Hne].
  - intros [= <-]. split; [ reflexivity | intros j Hj; lia ].
  - destruct (Layout.index_in ch rest) as [ k' | ]; [ | discriminate ].
    intros [= <-]. destruct (IH k' eq_refl) as [Hk Hlt].
    split; [ exact Hk | ].
    intros [ | j ] Hj; simpl; [ congruence | apply Hlt; lia ].
Qed.

Lemma index_in_None (l : list ascii) :
  Layout.index_in ch l = None -> forall j, l !! j <> Some ch.
Proof using Type.
  induction l as [ | c rest IH ]; simpl; intros H j.
  - rewrite lookup_nil. discriminate.
  - destruct (Ascii.eqb_spec c ch) as [-> | Hne]; [ discriminate | ].
    destruct (Layout.index_in ch rest); [ discriminate | ].
    destruct j as [ | j ]; simpl; [ congruence | apply IH; reflexivity ].
Qed.

Lemma indexOf_found (text : list ascii) (from : Z) :
  0 <= from -> 0 <= Layout.indexOf ch text from ->
  from <= Layout.indexOf ch text from < Z.of_nat (length text)
  /\ text !! Z.to_nat (Layout.indexOf ch text from) = Some ch
  /\ forall q, from <= q < Layout.indexOf ch text from -> text !! Z.to_nat q <> Some ch.
Proof using Type.
  intros Hfrom. unfold Layout.indexOf.
  destruct (Z.leb_spec (Z.of_nat (length text)) from) as [Hge | Hlt]; [ lia | ].
  destruct (Layout.index_in ch (drop (Z.to_nat from) text)) as [ k | ] eqn:E; [ | lia ].
  intros _. destruct (index_in_Some _ _ E) as [Hk Hbefore].
  rewrite lookup_drop in Hk.
  replace (Z.to_nat (from + Z.of_nat k)) with (Z.to_nat from + k)%nat by lia.
  split.
  - apply lookup_lt_Some in Hk. lia.
  - split; [ exact Hk | ].
    intros q Hq. specialize (Hbefore (Z.to_nat q - Z.to_nat from)%nat).
    rewrite lookup_drop in Hbefore.
    replace (Z.to_nat from + (Z.to_nat q - Z.to_nat from))%nat with (Z.to_nat q)
      in Hbefore by lia.
    apply Hbefore. lia.
Qed.

Lemma indexOf_none (text : list ascii) (from : Z) :
  0 <= from -> Layout.indexOf ch text from < 0 ->
  forall q, from <= q -> text !! Z.to_nat q <> Some ch.
Proof using Type.
  intros Hfrom. unfold Layout.indexOf.
  destruct (Z.leb_spec (Z.of_nat (length text)) from) as [Hge | Hlt].
  - intros _ q Hq. rewrite lookup_ge_None_2 by lia. discriminate.
  - destruct (Layout.index_in ch (drop (Z.to_nat from) text)) as [ k | ] eqn:E; [ lia | ].
    intros _ q Hq.
    pose proof (index_in_None _ E (Z.to_nat q - Z.to_nat from)%nat) as Hn.
    rewrite lookup_drop in Hn.
    replace (Z.to_nat from + (Z.to_nat q - Z.to_nat from))%nat with (Z.to_nat q)
      in Hn by lia.
    exact Hn.
Qed.

End IndexOf.

Lemma length_list_ascii_of_string (s : string) :
  length (list_ascii_of_string s) = String.length s.
Proof. induction s as [ | c s IH ]; simpl; [ reflexivity | rewrite IH; reflexivity ]. Qed.

Section SplitLoop.

Variable text : list ascii.
Hypothesis short : Z.of_nat (length text) < 65536.

Let len : Z := Z.of_nat (length text).
Let mid : Z := len / 2.
Let sp (q : Z) : Prop := text !! Z.to_nat q = Some Layout.space.
Let split_inv := Inv.split_inv text.
Let split_post := Inv.split_post text.

Lemma splitIndex_loop_spec (fuel : nat) :
  forall index,
    split_inv index ->
    (1 <= fuel)%nat -> mid + 1 - index < Z.of_nat fuel ->
    exists r, Layout.splitIndex_loop fuel text index = Some r /\ split_post r.
Proof using short.
  unfold split_inv, split_post, Inv.split_post, Inv.split_inv.
  fold len. fold mid. fold sp.
  induction fuel as [ | fuel IH ]; intros index Hinv Hone Hfuel; [ lia | ].
  simpl. fold len. fold mid.
  destruct Hinv as (Hrange & Hprev & Hfirst).
  destruct (Z.leb_spec 0 (Layout.indexOf Layout.space text index)) as [Hfound | Hnone];
    simpl.
  - destruct (Z.leb_spec index mid) as [Hle | Hgt].
    + destruct (indexOf_found Layout.space text index ltac:(lia) Hfound)
        as (Hp & Hsp & Hbefore).
      rewrite u16_small by (unfold len in *; lia).
      apply IH.
      * split; [ unfold len; lia | ].
        split.
        -- right. unfold sp.
           replace (Layout.indexOf Layout.space text index + 1 - 1)
             with (Layout.indexOf Layout.space text index) by lia.
           exact Hsp.
        -- intros _ q Hq. unfold sp. apply Hbefore. lia.
      * lia.
      * lia.
    + exists index. split; [ reflexivity | ].
      split; [ repeat split; auto; lia | left; lia ].
  - exists index. split; [ reflexivity | ].
    split; [ repeat split; auto; lia | ].
    right. intros q Hq. unfold sp.
    apply (indexOf_none Layout.space text index); lia.
Qed.

End SplitLoop.

(** The loop of [splitIndex] ends, and where. *)
Lemma splitIndex_result (text : string) :
  Z.of_nat (String.length text) < 65536 ->
  exists r,
    Inv.split_post (list_ascii_of_string text) r
    /\ Layout.splitIndex text = Some (if r =? 0 then r else r - 1).
Proof.
  intros Hshort.
  pose proof (length_list_ascii_of_string text) as Hlen.
  destruct (splitIndex_loop_spec (list_ascii_of_string text)
              ltac:(rewrite Hlen; exact Hshort) (String.length text + 2) 0)
    as (r & Hloop & Hpost).
  - unfold Inv.split_inv. rewrite Hlen.
    split; [ lia | ]. split; [ left; reflexivity | ].
    intros Hmid. pose proof (Z.div_pos (Z.of_nat (String.length text)) 2). lia.
  - lia.
  - rewrite Hlen.
    pose proof (Z.div_le_upper_bound (Z.of_nat (String.length text)) 2
                  (Z.of_nat (String.length text))). lia.
  - exists r. split; [ exact Hpost | ].
    unfold Layout.splitIndex, Layout.splitIndex_fuel. rewrite Hloop.
    destruct (Z.eqb_spec r 0) as [E | N]; [ reflexivity | ].
    destruct Hpost as ((Hr & _) & _). rewrite Hlen in Hr.
    rewrite u16_small by lia. reflexivity.
Qed.

(** C2, as the code has it.  On a text shorter than 65536 characters
    [splitIndex] returns: the first space at or after the midpoint
    [length / 2] when there is one; otherwise the last space of the text;
    and 0 when the text has no space. *)
Theorem splitIndex_first_space_from_mid :
  forall text : string,
    Z.of_nat (String.length text) < 65536 ->
    exists r,
      Layout.splitIndex text = Some r
      /\ (forall p,
            Layout.is_space text p -> Z.of_nat (String.length text) / 2 <= p ->
            (forall q, Layout.is_space text q ->
                       Z.of_nat (String.length text) / 2 <= q -> p <= q) ->
            r = p)
      /\ ((forall q, Layout.is_space text q -> q < Z.of_nat (String.length text) / 2) ->
          forall p,
            Layout.is_space text p ->
            (forall q, Layout.is_space text q -> q <= p) ->
            r = p)
      /\ ((forall q, ~ Layout.is_space text q) -> r = 0).
Proof.
  intros text Hshort.
  destruct (splitIndex_result text Hshort) as (r & Hpost & Hres).
  pose proof (length_list_ascii_of_string text) as Hlen.
  unfold Inv.split_post, Inv.split_inv in Hpost. rewrite Hlen in Hpost.
  cbv zeta in Hpost.
  set (mid := Z.of_nat (String.length text) / 2) in *.
  assert (Hmid : 0 <= mid) by (apply Z.div_pos; lia).
  destruct Hpost as ((Hr & Hprev & Hfirst) & Hexit).
  eexists. split; [ exact Hres | ].
  unfold Layout.is_space.
  destruct Hexit as [Hpast | Hnone].
  - (* the loop stopped just past a space at or after the midpoint *)
    destruct Hprev as [E0 | Hsp]; [ lia | ].
    rewrite (proj2 (Z.eqb_neq r 0)) by lia.
    split; [ | split ].
    + intros p [Hp0 Hp] Hge Hmin.
      specialize (Hmin (r - 1) ltac:(split; [ lia | exact Hsp ]) ltac:(lia)).
      destruct (Z.eq_dec p (r - 1)) as [-> | Hne]; [ reflexivity | ].
      exfalso. apply (Hfirst Hpast p); [ lia | exact Hp ].
    + intros Hall. specialize (Hall (r - 1) ltac:(split; [ lia | exact Hsp ])). lia.
    + intros Hno. exfalso. apply (Hno (r - 1)). split; [ lia | exact Hsp ].
  - (* the loop ran out of spaces before passing the midpoint *)
    destruct (Z_le_gt_dec r mid) as [Hle | Hgt].
    2:{ (* past the midpoint as well: the previous case *)
      destruct Hprev as [E0 | Hsp]; [ lia | ].
      rewrite (proj2 (Z.eqb_neq r 0)) by lia.
      split; [ | split ].
      + intros p [Hp0 Hp] Hge Hmin.
        specialize (Hmin (r - 1) ltac:(split; [ lia | exact Hsp ]) ltac:(lia)).
        destruct (Z.eq_dec p (r - 1)) as [-> | Hne]; [ reflexivity | ].
        exfalso. apply (Hfirst ltac:(lia) p); [ lia | exact Hp ].
      + intros Hall. specialize (Hall (r - 1) ltac:(split; [ lia | exact Hsp ])). lia.
      + intros Hno. exfalso. apply (Hno (r - 1)). split; [ lia | exact Hsp ]. }
    split; [ | split ].
    + intros p [Hp0 Hp] Hge _. exfalso. apply (Hnone p); [ lia | exact Hp ].
    + intros _ p [Hp0 Hp] Hmax.
      destruct Hprev as [E0 | Hsp].
      * exfalso. apply (Hnone p); [ lia | exact Hp ].
      * rewrite (proj2 (Z.eqb_neq r 0)).
        2:{ intros E0. subst r. apply (Hnone p); [ lia | exact Hp ]. }
        assert (0 <= r - 1).
        { destruct (Z_le_gt_dec 0 (r - 1)); [ assumption | ].
          exfalso. apply (Hnone p); [ lia | exact Hp ]. }
        specialize (Hmax (r - 1) ltac:(split; [ lia | exact Hsp ])).
        destruct (Z_le_gt_dec r p); [ | lia ].
        exfalso. apply (Hnone p); [ lia | exact Hp ].
    + intros Hno.
      destruct (Z.eqb_spec r 0) as [E0 | N0]; [ exact E0 | ].
      destruct Hprev as [E0 | Hsp]; [ contradiction | ].
      exfalso. apply (Hno (r - 1)). split; [ lia | exact Hsp ].
Qed.

Lemma splitIndex_first_space_from_mid_witness :
  exists r, Layout.splitIndex "Partly cloudy with a chance of rain" = Some r.
Proof.
  destruct (splitIndex_first_space_from_mid "Partly cloudy with a chance of rain")
    as (r & Hr & _); [ reflexivity | ].
  exists r. exact Hr.
Defined.

(** C2, as the specification has it, fails on its own example: the text has
    length 35 and midpoint 17, the last space at or before 17 is at 13, and
    [splitIndex] returns 18.  And a text whose only space lies after the
    midpoint is split there, not at 0. *)
Lemma splitIndex_is_not_last_space_before_mid :
  Layout.splitIndex "Partly cloudy with a chance of rain" = Some 18
  /\ Layout.splitIndex "abcdefgh ij" = Some 8
  /\ Layout.is_space "Partly cloudy with a chance of rain" 13
  /\ ~ (forall r, Layout.splitIndex "Partly cloudy with a chance of rain" = Some r ->
                  Spec.mid_split "Partly cloudy with a chance of rain" r).
Proof.
  split; [ reflexivity | ].
  split; [ reflexivity | ].
  assert (H13 : Layout.is_space "Partly cloudy with a chance of rain" 13)
    by (split; [ lia | reflexivity ]).
  split; [ exact H13 | ].
  intros H. specialize (H 18 eq_refl).
  unfold Spec.mid_split in H. cbv zeta in H.
  change (Z.of_nat (String.length "Partly cloudy with a chance of rain") / 2)
    with 17 in H.
  destruct H as [(_ & Hle & _) | (Hno & _)]; [ lia | ].
  specialize (Hno 13 H13). lia.
Qed.

(** ** The location cache *)

Lemma getLocationName_not_200 (P : Platform) cache code doc :
  code <> 200 -> Location.getLocationName P cache code doc = cache.
Proof.
  intros H. unfold Location.getLocationName.
  rewrite (proj2 (Z.eqb_neq code 200)) by exact H. reflexivity.
Qed.

Lemma getLocationName_null_doc (P : Platform) cache code :
  Location.getLocationName P cache code Json.Null = cache.
Proof.
  unfold Location.getLocationName. destruct (code =? 200); reflexivity.
Qed.

(** A lookup that fails (a status other than 200, which is what a timeout
    gives, or a body that does not parse) returns the cached value and
    leaves it as it was, and so does any run of such lookups. *)
Lemma failed_lookups_keep_cache (P : Platform) (cache : string)
    (rs : list (Z * Json.value)) :
  Forall (fun r => fst r <> 200 \/ snd r = Json.Null) rs ->
  Location.lookups P cache rs = cache.
Proof.
  induction 1 as [ | [code doc] rest Hfail _ IH ]; simpl; [ reflexivity | ].
  simpl in Hfail. destruct Hfail as [Hcode | ->].
  - rewrite getLocationName_not_200 by exact Hcode. exact IH.
  - rewrite getLocationName_null_doc. exact IH.
Qed.

Lemma failed_lookups_keep_cache_witness :
  Location.lookups Bench.utc "Envigado, Colombia"
    [ (-1, Json.Null); (404, Json.Obj []); (200, Json.Null) ] = "Envigado, Colombia".
Proof.
  apply (failed_lookups_keep_cache Bench.utc "Envigado, Colombia"
           [ (-1, Json.Null); (404, Json.Obj []); (200, Json.Null) ]).
  repeat constructor; simpl; lia.
Defined.

(** C8, at the input where the code departs from it: a 200 answer with a
    city and an empty country name overwrites the cache, on any platform. *)
Theorem empty_country_overwrites_cache :
  forall P : Platform,
    Location.getLocationName P Location.default_location 200 Bench.no_country_doc
    = "Paris, ".
Proof. intros P. reflexivity. Qed.

(** ** The forecast columns *)

Lemma nth_insert_eq {A : Type} (a : list A) (i : nat) (v d : A) :
  (i < length a)%nat -> nth i (<[ i := v ]> a) d = v.
Proof.
  intros H. rewrite nth_lookup, list_lookup_insert_eq by exact H. reflexivity.
Qed.

Lemma nth_insert_ne {A : Type} (a : list A) (i j : nat) (v d : A) :
  i <> j -> nth j (<[ i := v ]> a) d = nth j a d.
Proof.
  intros H. rewrite !nth_lookup, list_lookup_insert_ne by exact H. reflexivity.
Qed.

(** A write of the default value reads back as the default value, in range
    or not. *)
Lemma nth_insert_default {A : Type} (a : list A) (i : nat) (d : A) :
  nth i (<[ i := d ]> a) d = d.
Proof.
  destruct (decide (i < length a)%nat) as [Hlt | Hge].
  - apply nth_insert_eq. exact Hlt.
  - rewrite list_insert_ge by lia. apply nth_overflow. lia.
Qed.

(** The loop over the four days leaves [g i] in slot [8 * i]. *)
Lemma fill_days_slot {A : Type} (g : nat -> A) (a : list A) (d : A) (i : nat) :
  length a = slots -> In i [1%nat; 2%nat; 3%nat; 4%nat] ->
  nth (i * 8) (Refresh.fill_days g a) d = g i.
Proof.
  intros Hlen Hi. unfold Refresh.fill_days, slots in *. simpl in *.
  destruct Hi as [<- | [<- | [<- | [<- | []]]]]; simpl;
    repeat first
      [ rewrite nth_insert_eq by (rewrite ?length_insert; lia); reflexivity
      | rewrite nth_insert_ne by lia ].
Qed.

(** The weekday labels of the four columns are those of the sunrise
    timestamps that [updateData] stored in the slots 8, 16, 24 and 32, which
    are the entries 1 to 4 of the document's daily sunrise array. *)
Lemma forecast_labels_read_stored_sunrise (P : Platform) (now : Z)
    (doc : Json.value) (f : OW_forecast) :
  length (dt f) = slots ->
  (forall i, In i [1%nat; 2%nat; 3%nat; 4%nat] ->
     rdZ (dt (Refresh.populate P doc f)) (i * 8)
     = Convert.as_u32 P (Json.element i (Json.member "sunrise" (Json.member "daily" doc))))
  /\ (forall g, map (fun c => match c with DrawString s _ 171 => s | _ => "" end)
                  (List.filter (fun c => match c with DrawString _ _ 171 => true | _ => false end)
                     (Panels.drawForecast P now g))
                = map (Panels.dayName g) [8%nat; 16%nat; 24%nat; 32%nat]).
Proof.
  intros Hlen. split.
  - intros i Hi. unfold rdZ. simpl.
    apply (fill_days_slot
             (fun i => Convert.as_u32 P
                         (Json.element i (Json.member "sunrise" (Json.member "daily" doc)))));
      assumption.
  - intros g. reflexivity.
Qed.

Lemma forecast_labels_read_stored_sunrise_witness :
  rdZ (dt (Refresh.populate Bench.east Bench.early_sunrise_doc OW_forecast_zero)) 8
  = Bench.sunday_evening_utc.
Proof.
  destruct (forecast_labels_read_stored_sunrise Bench.east 0 Bench.early_sunrise_doc
              OW_forecast_zero eq_refl) as [H _].
  pose proof (H 1%nat ltac:(simpl; auto)) as E.
  change (1 * 8)%nat with 8%nat in E. rewrite E. reflexivity.
Defined.

(** C9, at the input where the code departs from it.  Ten hours east of
    UTC, a sunrise at Monday 06:00 local time is Sunday 20:00 UTC: the column
    is labelled from the UTC timestamp ("SUN") although its local weekday is
    Monday, and although [strTime] converts the same timestamp to 06:00. *)
Theorem weekday_label_not_local :
  rdZ (dt (Refresh.populate Bench.east Bench.early_sunrise_doc OW_forecast_zero)) 8
  = Bench.sunday_evening_utc
  /\ Panels.dayName
       (Refresh.populate Bench.east Bench.early_sunrise_doc OW_forecast_zero) 8 = "SUN"
  /\ Spec.dayName_local Bench.east
       (Refresh.populate Bench.east Bench.early_sunrise_doc OW_forecast_zero) 8 = "MON"
  /\ Fmt.strTime Bench.east Bench.sunday_evening_utc = "06:00".
Proof. repeat split; vm_compute; reflexivity. Qed.

(** ** The pressure trend *)

(** Given the previous reading (never negative), the arrow that
    [drawCurrentWeather] chooses is the trend of the new reading against it:
    up when strictly greater, down when strictly less, none when equal or
    when there is no previous reading. *)
Lemma trend_arrow_rule (last p : Q) :
  (0 <= last)%Q -> Layout.trend_arrow last p = Spec.trend last p.
Proof.
  intros Hnonneg. unfold Layout.trend_arrow, Spec.trend, Qltb.
  destruct (Qcompare 0 last) eqn:C0.
  - apply Qeq_alt in C0.
    rewrite (proj2 (Qeq_bool_iff last 0)) by (symmetry; exact C0). reflexivity.
  - apply Qlt_alt in C0. simpl.
    destruct (Qeq_bool last 0) eqn:E0.
    { apply Qeq_bool_iff in E0. rewrite E0 in C0. exfalso. apply (Qlt_irrefl 0 C0). }
    destruct (Qeq_bool last p) eqn:E; simpl.
    + apply Qeq_bool_iff in E.
      rewrite (proj1 (Qeq_alt p last)) by (symmetry; exact E). reflexivity.
    + rewrite <- (Qcompare_antisym last p).
      destruct (Qcompare last p) eqn:C; simpl; try reflexivity.
      apply Qeq_alt in C. apply Qeq_bool_neq in E. contradiction.
  - apply Qgt_alt in C0. exfalso. apply (Qlt_not_le _ _ C0 Hnonneg).
Qed.

Lemma trend_arrow_rule_witness :
  Layout.trend_arrow 1010 1015 = Some Layout.ArrowUp
  /\ Layout.trend_arrow 1010 1005 = Some Layout.ArrowDown
  /\ Layout.trend_arrow 1010 1010 = None.
Proof.
  rewrite !(trend_arrow_rule 1010) by (vm_compute; discriminate).
  repeat split; reflexivity.
Defined.

(** On a 200 answer the value kept for the next comparison is read from the
    object that [new OW_forecast] has just returned, not from the reading of
    the cycle before. *)
Lemma updateData_saves_fresh_pressure (P : Platform) (c : Refresh.Cycle) (g : Globals) :
  lastPressure (Refresh.updateData P c g)
  = if fst (Refresh.weather c) =? 200
    then Refresh.saved_pressure (Refresh.fresh c) (lastPressure g)
    else lastPressure g.
Proof.
  unfold Refresh.updateData. destruct (fst (Refresh.weather c) =? 200); reflexivity.
Qed.

(** When every refresh allocates an object whose [pressure[0]] is 0, as
    the library's initialisers leave it, whatever its other fields hold, no
    refresh ever changes [lastPressure]: from power-up it stays 0. *)
Lemma zero_object_never_saves (P : Platform) (cs : list Refresh.Cycle) :
  Forall (fun c => (rdQ (pressure (Refresh.fresh c)) 0 == 0)%Q) cs ->
  forall g, lastPressure (Refresh.run P cs g) = lastPressure g.
Proof.
  unfold Refresh.run.
  induction 1 as [ | c rest Hc _ IH ]; intros g; simpl; [ reflexivity | ].
  rewrite IH, updateData_saves_fresh_pressure.
  destruct (fst (Refresh.weather c) =? 200); [ | reflexivity ].
  unfold Refresh.saved_pressure, Qltb.
  rewrite (proj1 (Qeq_alt 0 (rdQ (pressure (Refresh.fresh c)) 0)))
    by (symmetry; exact Hc).
  reflexivity.
Qed.

Lemma zero_object_never_saves_witness :
  lastPressure
    (Refresh.run Bench.utc
       [ Bench.cycle 1704110000 200 (Bench.weather_doc 1010);
         Bench.cycle 1704120000 200 (Bench.weather_doc 1015) ] Refresh.initial)
  = 0%Q.
Proof.
  rewrite (zero_object_never_saves Bench.utc
             [ Bench.cycle 1704110000 200 (Bench.weather_doc 1010);
               Bench.cycle 1704120000 200 (Bench.weather_doc 1015) ])
    by (repeat constructor; reflexivity).
  reflexivity.
Defined.

(** C3, at the input where the code departs from it.  Two refreshes in a
    row succeed, with pressures 1010 and then 1015: after the second one the
    stored previous pressure is still 0, not 1010, and no arrow has been
    drawn next to "1015 hPa", where a rising arrow is due. *)
Theorem pressure_memory_lost :
  lastPressure
    (Refresh.updateData Bench.utc
       (Bench.cycle 1704120000 200 (Bench.weather_doc 1015)) Bench.after_first)
  = 0%Q
  /\ lastPressure Bench.after_first = 0%Q
  /\ In (DrawString "1010 hPa" 230 136) (screen Bench.after_first)
  /\ In (DrawString "1015 hPa" 230 136)
        (screen (Refresh.updateData Bench.utc
                   (Bench.cycle 1704120000 200 (Bench.weather_doc 1015))
                   Bench.after_first))
  /\ List.filter Spec.is_arrow
       (screen (Refresh.updateData Bench.utc
                  (Bench.cycle 1704120000 200 (Bench.weather_doc 1015))
                  Bench.after_first)) = []
  /\ Spec.trend 1010 1015 = Some Layout.ArrowUp.
Proof.
  split; [ vm_compute; reflexivity | ].
  split; [ vm_compute; reflexivity | ].
  split; [ vm_compute; tauto | ].
  split; [ vm_compute; tauto | ].
  split; vm_compute; reflexivity.
Qed.

(** ** The refresh cycle *)

Lemma fill_days_default {A : Type} (g : nat -> A) (a : list A) (d : A) (day : Spec.Day) :
  g (Spec.day_number day) = d ->
  nth (Spec.day_number day * 8) (Refresh.fill_days g a) d = d.
Proof.
  intros Hg. unfold Refresh.fill_days. simpl.
  destruct day; simpl in *;
    repeat first
      [ rewrite Hg; apply nth_insert_default
      | rewrite nth_insert_ne by lia ].
Qed.

Lemma fill_days_slot0 {A : Type} (g : nat -> A) (a : list A) (d : A) :
  nth 0 (Refresh.fill_days g a) d = nth 0 a d.
Proof.
  unfold Refresh.fill_days. simpl.
  rewrite !nth_insert_ne by lia. reflexivity.
Qed.

(** A null variant reads as zero under every conversion. *)
Lemma null_reads_zero (P : Platform) :
  Convert.as_float P Json.Null = 0%Q /\ Convert.as_u8 P Json.Null = 0
  /\ Convert.as_u16 P Json.Null = 0 /\ Convert.as_u32 P Json.Null = 0
  /\ Convert.as_i32 P Json.Null = 0.
Proof. repeat split; reflexivity. Qed.

(** A required field that the document lacks is stored as 0. *)
Lemma missing_field_stored_zero (P : Platform) (doc : Json.value) (f : OW_forecast)
    (fld : Spec.Field) :
  Spec.field_source doc fld = Json.Null ->
  Spec.field_stored (Refresh.populate P doc f) fld = 0%Q.
Proof.
  destruct (null_reads_zero P) as (Hf & H8 & H16 & H32 & Hi).
  intros Hnull. unfold Spec.field_source in Hnull.
  destruct fld; simpl; unfold rdQ, rdZ; simpl;
    try (rewrite Hnull, ?Hf, ?H8, ?H16, ?H32, ?Hi;
         first [ reflexivity
               | rewrite nth_insert_default; reflexivity
               | rewrite fill_days_slot0, nth_insert_default; reflexivity ]).
  - rewrite (fill_days_default _ _ 0%Q d); [ reflexivity | ].
    simpl. rewrite Hnull. exact Hf.
  - rewrite (fill_days_default _ _ 0%Q d); [ reflexivity | ].
    simpl. rewrite Hnull. exact Hf.
  - rewrite (fill_days_default _ _ 0 d); [ reflexivity | ].
    simpl. rewrite Hnull. exact H16.
  - rewrite (fill_days_default _ _ 0 d); [ reflexivity | ].
    simpl. rewrite Hnull. exact H32.
Qed.

(** The display after a refresh: what was there, the progress bars of the
    first refresh and, on a 200 answer, the rendering of the populated
    object. *)
Lemma updateData_screen (P : Platform) (c : Refresh.Cycle) (g : Globals) :
  screen (Refresh.updateData P c g)
  = (screen g
     ++ (if booted g
         then Panels.drawProgress 20 "Updating time..."
              ++ Panels.drawProgress 50 "Updating conditions..."
         else [])
     ++ (if fst (Refresh.weather c) =? 200
         then Panels.render P (Refresh.now c)
                (Refresh.saved_pressure (Refresh.fresh c) (lastPressure g))
                (Refresh.populate P (snd (Refresh.weather c))
                   (Refresh.with_city (Refresh.fresh c)
                      (Location.getLocationName P (lastValidLocation g)
                         (fst (Refresh.geo c)) (snd (Refresh.geo c)))))
         else []))%list.
Proof.
  unfold Refresh.updateData.
  destruct (fst (Refresh.weather c) =? 200); simpl.
  - reflexivity.
  - rewrite app_nil_r. reflexivity.
Qed.

(** C1, as the specification has it, fails: a 200 answer whose document
    lacks a required field (the cloud cover, which the request does not even
    ask for) does not leave the display as it was; the screen is cleared and
    redrawn, with "0%" for the missing cloud cover. *)
Lemma missing_field_is_drawn_as_zero :
  Spec.field_source Bench.no_cloud_doc Spec.CloudCover = Json.Null
  /\ screen (Refresh.updateData Bench.utc
               (Bench.cycle 1704120000 200 Bench.no_cloud_doc) Bench.after_first)
     <> screen Bench.after_first
  /\ nth (length (screen Bench.after_first))
         (screen (Refresh.updateData Bench.utc
                    (Bench.cycle 1704120000 200 Bench.no_cloud_doc) Bench.after_first))
         (DrawString "" 0 0)
     = FillScreen
  /\ In (DrawString "0%" 210 277)
        (screen (Refresh.updateData Bench.utc
                   (Bench.cycle 1704120000 200 Bench.no_cloud_doc) Bench.after_first)).
Proof.
  split; [ reflexivity | ].
  split.
  - intros H. apply (f_equal (@length DrawCmd)) in H. vm_compute in H. discriminate.
  - split; [ vm_compute; reflexivity | vm_compute; tauto ].
Qed.

(** * Further properties of the sketch *)

(** ** The compass sectors over all integers *)

Lemma raw_sector_negative (b : Z) :
  b < 0 -> Z.quot (truncQ (inject_Z b + (45 # 2))) 45 <= 0.
Proof.
  intros Hb. rewrite truncQ_bearing.
  assert (H1 : Z.quot (2 * b + 45) 2 <= 21).
  { destruct (Z_le_gt_dec 0 (2 * b + 45)) as [Hpos | Hneg].
    - rewrite Z.quot_div_nonneg by lia.
      enough ((2 * b + 45) / 2 < 22) by lia.
      apply Z.div_lt_upper_bound; lia.
    - pose proof (Z.quot_le_mono (2 * b + 45) 0 2 ltac:(lia) ltac:(lia)) as Hq.
      rewrite Z.quot_0_l in Hq by lia. lia. }
  destruct (Z_le_gt_dec 0 (Z.quot (2 * b + 45) 2)) as [Hpos | Hneg].
  - rewrite Z.quot_small by lia. lia.
  - pose proof (Z.quot_le_mono (Z.quot (2 * b + 45) 2) 0 45 ltac:(lia) ltac:(lia)) as Hq.
    rewrite Z.quot_0_l in Hq by lia. exact Hq.
Qed.

Lemma windAngle_closed_form (b : Z) :
  Layout.windAngle b = if (0 <=? b) && (b <? 338) then (b + 22) / 45 else 0.
Proof.
  unfold Layout.windAngle.
  destruct (Z.leb_spec 0 b) as [Hpos | Hneg]; simpl.
  - rewrite raw_sector_nonneg by exact Hpos.
    assert (H0 : 0 <= (b + 22) / 45) by (apply Z.div_pos; lia).
    destruct (Z.ltb_spec b 338) as [Hlt | Hge].
    + assert ((b + 22) / 45 < 8) by (apply Z.div_lt_upper_bound; lia).
      rewrite (proj2 (Z.ltb_ge 7 _)) by lia.
      rewrite (proj2 (Z.ltb_ge _ 0)) by lia. reflexivity.
    + assert (8 <= (b + 22) / 45) by (apply Z.div_le_lower_bound; lia).
      rewrite (proj2 (Z.ltb_lt 7 _)) by lia. reflexivity.
  - pose proof (raw_sector_negative b Hneg) as Hraw.
    destruct (Z.ltb_spec 7 (Z.quot (truncQ (inject_Z b + (45 # 2))) 45)); simpl; [ lia | ].
    destruct (Z.ltb_spec (Z.quot (truncQ (inject_Z b + (45 # 2))) 45) 0); lia.
Qed.

(** The bearings of each sector, over all integers: sector [k] from 1 to 7
    holds the 45 bearings from [45 k - 22] to [45 k + 22], and sector 0
    (North) holds every other integer: the bearings up to 22, negative ones
    included, and those from 338 on, 360 and more included. *)
Theorem wind_sectors_partition :
  forall b : Z,
    (forall k, 1 <= k <= 7 ->
       (Layout.windAngle b = k <-> 45 * k - 22 <= b <= 45 * k + 22))
    /\ (Layout.windAngle b = 0 <-> b <= 22 \/ 338 <= b).
Proof.
  intros b. rewrite windAngle_closed_form.
  destruct (Z.leb_spec 0 b) as [Hpos | Hneg]; simpl.
  - destruct (Z.ltb_spec b 338) as [Hlt | Hge].
    + pose proof (Z.div_mod (b + 22) 45 ltac:(lia)) as Hdm.
      pose proof (Z.mod_pos_bound (b + 22) 45 ltac:(lia)) as Hm.
      split; [ intros k Hk | ]; split; intros H; lia.
    + split; [ intros k Hk | ]; split; intros H; lia.
  - split; [ intros k Hk | ]; split; intros H; lia.
Qed.

Lemma wind_sectors_partition_witness :
  Layout.windAngle 293 = 6 <-> 45 * 6 - 22 <= 293 <= 45 * 6 + 22.
Proof. apply (proj1 (wind_sectors_partition 293) 6). lia. Defined.

(** ** The icon names and the condition word *)

Lemma icon_name_in_names (c : Z) : In (Classifier.icon_name c) Shape.icon_names.
Proof.
  unfold Classifier.icon_name, Shape.icon_names.
  by_bands c; settle_tests; simpl; tauto.
Qed.

Lemma icon_name_night (c : Z) :
  Classifier.icon_name c = "clear-night" \/ Classifier.icon_name c = "partly-cloudy-night" ->
  1000 <= c <= 1003.
Proof.
  unfold Classifier.icon_name.
  by_bands c; settle_tests; simpl; intros [H | H]; try discriminate H; lia.
Qed.

Lemma night_adjust_two_readings now1 now2 sr ss c today :
  Classifier.night_adjust now1 now2 sr ss c today = c
  \/ (today = true /\ c <= 3 /\ (now1 < sr \/ ss < now2)
      /\ Classifier.night_adjust now1 now2 sr ss c today = u16 (c + 1000)).
Proof.
  unfold Classifier.night_adjust.
  destruct today; simpl; [ | left; reflexivity ].
  destruct (Z.leb_spec c 3); simpl; [ | left; reflexivity ].
  destruct (Z.ltb_spec now1 sr); simpl; [ right; auto | ].
  destruct (Z.ltb_spec ss now2); [ right; auto | left; reflexivity ].
Qed.

(** Whatever the code, the flag and the clock, [getMeteoconIcon] names one
    of ten bitmaps, and it names a night bitmap only for the current panel
    with a code up to 3 outside daylight, or for a code that is itself in
    1000..1003. *)
Theorem icon_is_one_of_ten :
  forall (now1 now2 sr ss code : Z) (today : bool),
    In (Classifier.getMeteoconIcon_at now1 now2 sr ss code today) Shape.icon_names
    /\ (Classifier.getMeteoconIcon_at now1 now2 sr ss code today = "clear-night"
        \/ Classifier.getMeteoconIcon_at now1 now2 sr ss code today = "partly-cloudy-night" ->
        (today = true /\ u16 code <= 3 /\ (now1 < sr \/ ss < now2))
        \/ 1000 <= u16 code <= 1003).
Proof.
  intros now1 now2 sr ss code today. unfold Classifier.getMeteoconIcon_at.
  split; [ apply icon_name_in_names | ].
  intros Hnight. apply icon_name_night in Hnight.
  destruct (night_adjust_two_readings now1 now2 sr ss (u16 code) today)
    as [E | (Ht & H3 & Hn & _)].
  - right. rewrite E in Hnight. exact Hnight.
  - left. auto.
Qed.

Lemma icon_is_one_of_ten_witness :
  (true = true /\ u16 2 <= 3 /\ (5 < 10 \/ 20 < 5)) \/ 1000 <= u16 2 <= 1003.
Proof.
  apply (proj2 (icon_is_one_of_ten 5 5 10 20 2 true)).
  right. reflexivity.
Defined.

(** On the current panel, for the codes 0..99: the word is "Clear" exactly
    with a clear icon (day or night) and "Cloudy" exactly with a partly
    cloudy icon; fog and drizzle icons come with "Rain"; snow and
    thunderstorm icons come with "Storm". *)
Theorem word_and_icon_of_current_panel :
  forall now sr ss code : Z,
    0 <= code <= 99 ->
    (Classifier.legend code = "Clear"
     <-> Classifier.getMeteoconIcon now sr ss code true = "clear-day"
         \/ Classifier.getMeteoconIcon now sr ss code true = "clear-night")
    /\ (Classifier.legend code = "Cloudy"
        <-> Classifier.getMeteoconIcon now sr ss code true = "partly-cloudy-day"
            \/ Classifier.getMeteoconIcon now sr ss code true = "partly-cloudy-night")
    /\ (Classifier.getMeteoconIcon now sr ss code true = "fog"
        \/ Classifier.getMeteoconIcon now sr ss code true = "drizzle" ->
        Classifier.legend code = "Rain")
    /\ (Classifier.getMeteoconIcon now sr ss code true = "snow"
        \/ Classifier.getMeteoconIcon now sr ss code true = "thunderstorm" ->
        Classifier.legend code = "Storm").
Proof.
  intros now sr ss code Hcode.
  unfold Classifier.getMeteoconIcon, Classifier.getMeteoconIcon_at,
    Classifier.night_adjust, Classifier.legend.
  rewrite (u16_small code) by lia. simpl.
  destruct ((now <? sr) || (ss <? now));
    by_bands code; try lia; settle_tests; simpl;
    try rewrite u16_small by lia;
    unfold Classifier.icon_name; settle_tests; simpl;
    (repeat split; try (intros [H | H]; discriminate H); try discriminate; auto).
Qed.

Lemma word_and_icon_of_current_panel_witness :
  Classifier.legend 73 = "Storm".
Proof.
  apply (proj2 (proj2 (proj2 (word_and_icon_of_current_panel 0 10 20 73 ltac:(lia))))).
  left. reflexivity.
Defined.

(** ** The weekday label *)

(** The label of a forecast column is always one of SUN .. SAT: TimeLib's
    placeholder for day 0 never appears, whatever the stored timestamp. *)
Theorem dayName_is_a_weekday :
  forall (f : OW_forecast) (dayIndex : nat),
    In (Panels.dayName f dayIndex) Shape.day_labels
    /\ 1 <= Fmt.weekday (rdZ (dt f) dayIndex) <= 7.
Proof.
  intros f dayIndex. unfold Panels.dayName, Fmt.weekday.
  pose proof (Z.mod_pos_bound (rdZ (dt f) dayIndex mod 4294967296 / 86400 + 4) 7
                ltac:(lia)) as Hm.
  split; [ | lia ].
  set (w := (rdZ (dt f) dayIndex mod 4294967296 / 86400 + 4) mod 7) in *.
  assert (Hw : w = 0 \/ w = 1 \/ w = 2 \/ w = 3 \/ w = 4 \/ w = 5 \/ w = 6) by lia.
  repeat (destruct Hw as [Hw | Hw]); rewrite Hw; vm_compute; tauto.
Qed.

(** ** Clock strings and the offsets to a character *)

Lemma append_assoc_str (a b c : string) : (a +:+ b) +:+ c = a +:+ (b +:+ c).
Proof.
  induction a as [ | x a IH ]; [ reflexivity | ].
  change (String x ((a +:+ b) +:+ c) = String x (a +:+ (b +:+ c))).
  apply f_equal. exact IH.
Qed.

Lemma append_empty_r (a : string) : a +:+ "" = a.
Proof.
  induction a as [ | x a IH ]; [ reflexivity | ].
  change (String x (a +:+ "") = String x a).
  apply f_equal. exact IH.
Qed.

Lemma string_of_list_ascii_app (a b : list ascii) :
  string_of_list_ascii (a ++ b) = string_of_list_ascii a +:+ string_of_list_ascii b.
Proof.
  induction a as [ | x a IH ]; [ reflexivity | ].
  change (String x (string_of_list_ascii (a ++ b))
          = String x (string_of_list_ascii a +:+ string_of_list_ascii b)).
  apply f_equal. exact IH.
Qed.

(** A number below 60 printed as the sketch prints hours and minutes (a
    ["0"] in front when below 10) is two digits. *)
Lemma two_digits (n : Z) (rest : string) :
  0 <= n < 60 ->
  exists a b,
    Shape.is_digit a = true /\ Shape.is_digit b = true
    /\ (if n <? 10 then "0" else "") +:+ Fmt.intStr n +:+ rest = String a (String b rest).
Proof.
  intros Hn.
  assert (Hall :
    forallb (fun k =>
               match (if Z.of_nat k <? 10 then "0" else "") +:+ Fmt.intStr (Z.of_nat k) with
               | String a (String b EmptyString) => Shape.is_digit a && Shape.is_digit b
               | _ => false
               end) (seq 0 60) = true) by (vm_compute; reflexivity).
  rewrite forallb_forall in Hall.
  specialize (Hall (Z.to_nat n) ltac:(apply in_seq; lia)).
  rewrite Z2Nat.id in Hall by lia.
  rewrite <- append_assoc_str.
  destruct ((if n <? 10 then "0" else "") +:+ Fmt.intStr n) as [ | a [ | b [ | ] ] ];
    try discriminate Hall.
  apply andb_prop in Hall. destruct Hall as [Ha Hb].
  exists a, b. repeat split; assumption.
Qed.

Lemma digit_not_colon (a : ascii) :
  Shape.is_digit a = true -> Ascii.eqb a ":"%char = false.
Proof.
  intros H. destruct (Ascii.eqb_spec a ":"%char) as [-> | _]; [ | reflexivity ].
  vm_compute in H. discriminate H.
Qed.

(** [strTime] always gives five characters, two digits, a colon and two
    digits, and in the string that [drawAstronomy] builds from it (with a
    space appended) [leftOffset] measures the two hour digits and
    [rightOffset] the colon, the minutes and the space: the colon is the
    only thing that separates the two measures. *)
Theorem strTime_shape :
  forall (P : Platform) (f : Font) (t : Z),
  exists h1 h2 m1 m2,
    Fmt.strTime P t = String h1 (String h2 (String ":" (String m1 (String m2 ""))))
    /\ Shape.is_digit h1 = true /\ Shape.is_digit h2 = true
    /\ Shape.is_digit m1 = true /\ Shape.is_digit m2 = true
    /\ Sketch.leftOffset P f (Fmt.strTime P t +:+ " ") ":"%char
       = textWidth P f (String h1 (String h2 ""))
    /\ Fmt.rightOffset P f (Fmt.strTime P t +:+ " ") ":"%char
       = textWidth P f (String ":" (String m1 (String m2 " "))).
Proof.
  intros P f t. unfold Fmt.strTime. cbv zeta.
  assert (Hh : 0 <= Fmt.hour (toLocal P t) < 60).
  { unfold Fmt.hour. pose proof (Z.mod_pos_bound (toLocal P t mod 4294967296 / 3600) 24). lia. }
  assert (Hm : 0 <= Fmt.minute (toLocal P t) < 60).
  { unfold Fmt.minute. pose proof (Z.mod_pos_bound (toLocal P t mod 4294967296 / 60) 60). lia. }
  destruct (two_digits (Fmt.minute (toLocal P t)) "" Hm) as (m1 & m2 & Dm1 & Dm2 & Em).
  rewrite append_empty_r in Em. rewrite Em.
  destruct (two_digits (Fmt.hour (toLocal P t)) (":" +:+ String m1 (String m2 "")) Hh)
    as (h1 & h2 & Dh1 & Dh2 & Eh).
  rewrite Eh.
  exists h1, h2, m1, m2.
  split; [ reflexivity | ].
  repeat (split; [ assumption | ]).
  unfold Sketch.leftOffset, Fmt.rightOffset, Layout.indexOf. simpl.
  rewrite (digit_not_colon h1 Dh1), (digit_not_colon h2 Dh2). simpl.
  split; reflexivity.
Qed.

(** The clock that [drawTime] draws is [strTime] of the current time. *)
Lemma drawTime_text (P : Platform) (now : Z) :
  Sketch.drawTime P now = [ DrawString (Fmt.strTime P now) 120 53; DrawFastHLine 10 51 220 ].
Proof. reflexivity. Qed.

Lemma indexOf_absent (ch : ascii) (text : list ascii) (from : Z) :
  0 <= from -> Layout.indexOf ch text from < 0 -> Layout.indexOf ch text from = -1.
Proof.
  intros Hfrom. unfold Layout.indexOf.
  destruct (Z.of_nat (length text) <=? from); [ reflexivity | ].
  destruct (Layout.index_in ch (drop (Z.to_nat from) text)); [ lia | reflexivity ].
Qed.

(** [leftOffset] and [rightOffset] measure the two parts into which the
    first occurrence of the character cuts the text: what is before it, and
    the rest, which starts with it.  When the character does not occur,
    [leftOffset] measures the whole text and [rightOffset] the empty
    string. *)
Theorem offsets_cut_the_text :
  forall (P : Platform) (f : Font) (text : string) (ch : ascii),
    Z.of_nat (String.length text) < 4294967296 ->
    exists before after,
      before +:+ after = text
      /\ Sketch.leftOffset P f text ch = textWidth P f before
      /\ Fmt.rightOffset P f text ch = textWidth P f after
      /\ (forall p, list_ascii_of_string before !! p <> Some ch)
      /\ (0 <= Layout.indexOf ch (list_ascii_of_string text) 0 ->
          exists rest, after = String ch rest)
      /\ (Layout.indexOf ch (list_ascii_of_string text) 0 < 0 ->
          before = text /\ after = "").
Proof.
  intros P f text ch Hlen.
  pose proof (length_list_ascii_of_string text) as Hl.
  unfold Sketch.leftOffset, Fmt.rightOffset.
  set (l := list_ascii_of_string text) in *.
  set (index := Layout.indexOf ch l 0).
  exists (Sketch.substring 0 index text), (Fmt.substring_from index text).
  destruct (Z_le_gt_dec 0 index) as [Hfound | Habsent].
  - destruct (indexOf_found ch l 0 ltac:(lia) Hfound) as (Hrange & Hat & Hbefore).
    fold index in Hrange, Hat, Hbefore. rewrite Hl in Hrange.
    assert (Esub : Sketch.substring 0 index text
                   = string_of_list_ascii (take (Z.to_nat index) l)).
    { unfold Sketch.substring, Sketch.u32.
      rewrite Z.mod_0_l by lia. rewrite (Z.mod_small index) by lia.
      rewrite (proj2 (Z.ltb_ge index 0)) by lia.
      rewrite (proj2 (Z.leb_gt _ 0)) by lia.
      rewrite (proj2 (Z.ltb_ge _ index)) by lia.
      rewrite Z.sub_0_r. reflexivity. }
    assert (Efrom : Fmt.substring_from index text
                    = string_of_list_ascii (drop (Z.to_nat index) l)).
    { unfold Fmt.substring_from. rewrite (proj2 (Z.ltb_ge index 0)) by lia. reflexivity. }
    rewrite Esub, Efrom.
    split.
    { rewrite <- string_of_list_ascii_app, take_drop.
      apply string_of_list_ascii_of_string. }
    split; [ reflexivity | ]. split; [ reflexivity | ].
    split.
    { intros p. rewrite list_ascii_of_string_of_list_ascii.
      destruct (decide (p < Z.to_nat index)%nat) as [Hp | Hp].
      - rewrite lookup_take_lt by exact Hp.
        specialize (Hbefore (Z.of_nat p) ltac:(lia)).
        rewrite Nat2Z.id in Hbefore. exact Hbefore.
      - rewrite lookup_take_ge by lia. discriminate. }
    split; [ | lia ].
    intros _. rewrite (drop_S l ch (Z.to_nat index) Hat). simpl. eauto.
  - pose proof (indexOf_absent ch l 0 ltac:(lia) ltac:(fold index; lia)) as E.
    fold index in E.
    assert (Esub : Sketch.substring 0 index text = text).
    { rewrite E. unfold Sketch.substring, Sketch.u32.
      rewrite Z.mod_0_l by lia.
      change (-1 mod 4294967296) with 4294967295.
      change (4294967295 <? 0) with false. cbv iota.
      destruct (Z.leb_spec (Z.of_nat (String.length text)) 0) as [Hempty | Hne].
      - destruct text; [ reflexivity | simpl in Hempty; lia ].
      - rewrite Z.sub_0_r. fold l.
        change (drop (Z.to_nat 0) l) with l.
        destruct (Z.ltb_spec (Z.of_nat (String.length text)) 4294967295).
        + rewrite take_ge by lia. apply string_of_list_ascii_of_string.
        + rewrite take_ge by lia. apply string_of_list_ascii_of_string. }
    assert (Efrom : Fmt.substring_from index text = "").
    { rewrite E. reflexivity. }
    rewrite Esub, Efrom.
    split; [ apply append_empty_r | ].
    split; [ reflexivity | ]. split; [ reflexivity | ].
    split.
    { intros p.
      pose proof (indexOf_none ch l 0 ltac:(lia) ltac:(fold index; lia)
                    (Z.of_nat p) ltac:(lia)) as Hn.
      rewrite Nat2Z.id in Hn. exact Hn. }
    split; [ lia | auto ].
Qed.

Lemma offsets_cut_the_text_witness :
  exists before after, before +:+ after = "06:41 ".
Proof.
  destruct (offsets_cut_the_text Bench.utc FontSmall "06:41 " ":"%char)
    as (before & after & E & _); [ reflexivity | ].
  exists before, after. exact E.
Defined.

(** ** The search for the next day *)

Lemma nextDay_scan_spec (today : string) (dt_txt : list string) (rounds : nat) :
  forall index : nat,
    (index <= Sketch.nextDay_scan today dt_txt index rounds <= index + rounds)%nat
    /\ (forall i, (index <= i < Sketch.nextDay_scan today dt_txt index rounds)%nat ->
                  Sketch.day_of_txt (nth i dt_txt "") = today)
    /\ ((Sketch.nextDay_scan today dt_txt index rounds < index + rounds)%nat ->
        Sketch.day_of_txt
          (nth (Sketch.nextDay_scan today dt_txt index rounds) dt_txt "") <> today).
Proof.
  induction rounds as [ | rounds IH ]; intros index; simpl.
  - split; [ lia | ]. split; [ intros i Hi; lia | lia ].
  - destruct (String.eqb_spec (Sketch.day_of_txt (nth index dt_txt "")) today) as [E | N].
    + destruct (IH (S index)) as (Hr & Hsame & Hstop).
      split; [ lia | ]. split.
      * intros i Hi. destruct (decide (i = index)) as [-> | Hne]; [ exact E | ].
        apply Hsame. lia.
      * intros Hlt. apply Hstop. lia.
    + split; [ lia | ]. split; [ intros i Hi; lia | intros _; exact N ].
Qed.

(** [getNextDayIndex] returns an index from 1 to 9: every entry before it
    has the day of entry 0, and when it is below 9 the entry at it is the
    first one of another day. *)
Theorem getNextDayIndex_finds_day_change :
  forall dt_txt : list string,
    (1 <= Sketch.getNextDayIndex dt_txt <= 9)%nat
    /\ (forall i, (i < Sketch.getNextDayIndex dt_txt)%nat ->
          Sketch.day_of_txt (nth i dt_txt "") = Sketch.day_of_txt (nth 0 dt_txt ""))
    /\ ((Sketch.getNextDayIndex dt_txt < 9)%nat ->
        Sketch.day_of_txt (nth (Sketch.getNextDayIndex dt_txt) dt_txt "")
        <> Sketch.day_of_txt (nth 0 dt_txt "")).
Proof.
  intros dt_txt. unfold Sketch.getNextDayIndex.
  destruct (nextDay_scan_spec (Sketch.day_of_txt (nth 0 dt_txt "")) dt_txt 9 0)
    as (Hr & Hsame & Hstop).
  split; [ | split ].
  - split; [ | lia ].
    destruct (Sketch.nextDay_scan (Sketch.day_of_txt (nth 0 dt_txt "")) dt_txt 0 9)
      as [ | r ] eqn:E; [ | lia ].
    exfalso. apply Hstop; [ lia | reflexivity ].
  - intros i Hi. apply Hsame. lia.
  - intros Hlt. apply Hstop. lia.
Qed.

Lemma getNextDayIndex_finds_day_change_witness :
  Sketch.getNextDayIndex
    [ "2024-01-01 18:00:00"; "2024-01-01 21:00:00"; "2024-01-02 00:00:00";
      "2024-01-02 03:00:00" ] = 2%nat
  /\ Sketch.day_of_txt "2024-01-02 00:00:00" <> Sketch.day_of_txt "2024-01-01 18:00:00".
Proof.
  split; [ reflexivity | ].
  apply (proj2 (proj2 (getNextDayIndex_finds_day_change
           [ "2024-01-01 18:00:00"; "2024-01-01 21:00:00"; "2024-01-02 00:00:00";
             "2024-01-02 03:00:00" ]))).
  vm_compute. lia.
Defined.

(** ** The counter of [splitIndex] *)

(** When the first space of a text is at index 65535 the 16-bit counter of
    [splitIndex] wraps to 0 and the loop starts over: it never ends. *)
Theorem splitIndex_wraps_forever :
  forall text : string,
    Layout.indexOf Layout.space (list_ascii_of_string text) 0 = 65535 ->
    forall fuel, Layout.splitIndex_fuel fuel text = None.
Proof.
  intros text Hfirst fuel. unfold Layout.splitIndex_fuel.
  assert (Hloop : Layout.splitIndex_loop fuel (list_ascii_of_string text) 0 = None).
  { induction fuel as [ | fuel IH ]; simpl; [ reflexivity | ].
    rewrite Hfirst.
    assert (Hmid : 0 <= Z.of_nat (length (list_ascii_of_string text)) / 2)
      by (apply Z.div_pos; lia).
    change (0 <=? 65535) with true.
    rewrite (proj2 (Z.leb_le 0 (Z.of_nat (length (list_ascii_of_string text)) / 2)))
      by exact Hmid.
    exact IH. }
  rewrite Hloop. reflexivity.
Qed.

Lemma splitIndex_wraps_forever_witness :
  Layout.splitIndex_fuel 100 Samples.long_text = None.
Proof.
  apply (splitIndex_wraps_forever Samples.long_text).
  vm_compute. reflexivity.
Defined.

(** ** Progress bars *)

Lemma render_no_progress (P : Platform) (now : Z) (lp : Q) (f : OW_forecast) :
  List.filter Shape.is_progress (Panels.render P now lp f) = [].
Proof.
  unfold Panels.render, Panels.drawCurrentWeather, Panels.drawTrend, Panels.drawForecast,
    Panels.drawForecastDetail, Panels.drawAstronomy, Panels.drawSeparator.
  cbv zeta.
  destruct (moon_phase P _ _ _ _) as [icon ip].
  destruct (Layout.trend_arrow lp (rdQ (pressure f) 0)) as [ [ | ] | ];
    destruct (fsExists P (Panels.windPath f)); reflexivity.
Qed.

Lemma updateData_booted (P : Platform) (c : Refresh.Cycle) (g : Globals) :
  booted (Refresh.updateData P c g) = false.
Proof.
  unfold Refresh.updateData. destruct (fst (Refresh.weather c) =? 200); reflexivity.
Qed.

Lemma updateData_progress (P : Platform) (c : Refresh.Cycle) (g : Globals) :
  List.filter Shape.is_progress (screen (Refresh.updateData P c g))
  = (List.filter Shape.is_progress (screen g)
     ++ (if booted g
         then [ DrawProgressBar 10 269 220 15 20; DrawProgressBar 10 269 220 15 50 ]
         else []))%list.
Proof.
  rewrite updateData_screen, !List.filter_app.
  f_equal.
  replace (List.filter Shape.is_progress
             (if fst (Refresh.weather c) =? 200
              then Panels.render P (Refresh.now c)
                     (Refresh.saved_pressure (Refresh.fresh c) (lastPressure g))
                     (Refresh.populate P (snd (Refresh.weather c))
                        (Refresh.with_city (Refresh.fresh c)
                           (Location.getLocationName P (lastValidLocation g)
                              (fst (Refresh.geo c)) (snd (Refresh.geo c)))))
              else [])) with (@nil DrawCmd)
    by (destruct (fst (Refresh.weather c) =? 200);
        [ symmetry; apply render_no_progress | reflexivity ]).
  rewrite app_nil_r. destruct (booted g); reflexivity.
Qed.

(** The two progress bars are drawn by the first refresh after power-up and
    by no later one, whatever the refreshes meet: a run of refreshes adds
    exactly those two bars when it starts with [booted] set, and none
    otherwise. *)
Theorem progress_bars_only_at_boot :
  forall (P : Platform) (cs : list Refresh.Cycle) (g : Globals),
    List.filter Shape.is_progress (screen (Refresh.run P cs g))
    = (List.filter Shape.is_progress (screen g)
       ++ (if booted g && negb (Nat.eqb (length cs) 0)
           then [ DrawProgressBar 10 269 220 15 20; DrawProgressBar 10 269 220 15 50 ]
           else []))%list.
Proof.
  intros P cs. unfold Refresh.run.
  induction cs as [ | c rest IH ]; intros g; simpl.
  - rewrite andb_false_r, app_nil_r. reflexivity.
  - rewrite IH, updateData_booted, updateData_progress. simpl.
    rewrite andb_true_r, app_nil_r. reflexivity.
Qed.

(** ** The main loop *)

Lemma u32_of_difference (T0 T : Z) :
  0 <= T0 <= T -> T - T0 < 4294967296 ->
  Sketch.u32 (Sketch.u32 T - Sketch.s32 (Sketch.u32 T0)) = T - T0.
Proof.
  intros H0 Hlt. unfold Sketch.u32, Sketch.s32.
  symmetry. apply Z.mod_unique_pos with
    (q := (T0 mod 4294967296 + 2147483648) / 4294967296 + T0 / 4294967296
          - T / 4294967296); [ lia | ].
  pose proof (Z.div_mod T 4294967296 ltac:(lia)).
  pose proof (Z.div_mod T0 4294967296 ltac:(lia)).
  pose proof (Z.div_mod (T0 mod 4294967296 + 2147483648) 4294967296 ltac:(lia)).
  lia.
Qed.

(** The refresh timer survives the roll-over of [millis()]: if the last
    refresh was at uptime [T0] and the uptime is now [T], less than 2^32 ms
    later, the test of [loop] fires exactly when more than the interval has
    passed, although both readings are taken modulo 2^32 and the earlier one
    is kept in a signed [long]. *)
Theorem refresh_timer_survives_rollover :
  forall T0 T UPDATE_INTERVAL_SECS : Z,
    0 <= T0 <= T -> T - T0 < 4294967296 ->
    (Sketch.refresh_due false (Sketch.u32 T) (Sketch.s32 (Sketch.u32 T0))
       UPDATE_INTERVAL_SECS = true
     <-> Sketch.u32 (1000 * UPDATE_INTERVAL_SECS) < T - T0).
Proof.
  intros T0 T secs H0 Hlt. unfold Sketch.refresh_due. simpl.
  rewrite u32_of_difference by assumption.
  apply Z.ltb_lt.
Qed.

Lemma refresh_timer_survives_rollover_witness :
  Sketch.refresh_due false (Sketch.u32 4295000000) (Sketch.s32 (Sketch.u32 4294000000)) 900
  = true
  <-> Sketch.u32 (1000 * 900) < 4295000000 - 4294000000.
Proof.
  apply (refresh_timer_survives_rollover 4294000000 4295000000 900); lia.
Defined.

Lemma loop_refresh_booted (P : Platform) (secs : Z) (p : Sketch.Pass)
    (s : Sketch.LoopState) :
  booted (Sketch.globals (Sketch.loop_refresh P secs p s)) = false
  /\ Sketch.lastMinute (Sketch.loop_refresh P secs p s) = Sketch.lastMinute s.
Proof.
  unfold Sketch.loop_refresh, Sketch.refresh_due.
  destruct (booted (Sketch.globals s)) eqn:Hb; simpl.
  - split; [ apply updateData_booted | reflexivity ].
  - destruct (Sketch.u32 (1000 * secs)
              <? Sketch.u32 (Sketch.millis_test p - Sketch.lastDownloadUpdate s)); simpl.
    + split; [ apply updateData_booted | reflexivity ].
    + split; [ exact Hb | reflexivity ].
Qed.

(** In a pass of [loop] the clock is drawn exactly when [minute()] differs
    from [lastMinute], also in the first pass after power-up: the refresh
    that the first pass always makes has cleared [booted] before the clock
    test reads it.  A pass that starts with [booted] set makes the refresh,
    and every pass ends with [booted] cleared. *)
Theorem clock_drawn_iff_minute_changed :
  forall (P : Platform) (UPDATE_INTERVAL_SECS : Z) (p : Sketch.Pass) (s : Sketch.LoopState),
    screen (Sketch.globals (Sketch.loop P UPDATE_INTERVAL_SECS p s))
    = (screen (Sketch.globals (Sketch.loop_refresh P UPDATE_INTERVAL_SECS p s))
       ++ (if Sketch.minute_test p =? Sketch.lastMinute s
           then []
           else Sketch.drawTime P (Sketch.clock p)))%list
    /\ Sketch.lastMinute (Sketch.loop P UPDATE_INTERVAL_SECS p s)
       = (if Sketch.minute_test p =? Sketch.lastMinute s
          then Sketch.lastMinute s
          else Sketch.minute_set p)
    /\ booted (Sketch.globals (Sketch.loop P UPDATE_INTERVAL_SECS p s)) = false
    /\ (booted (Sketch.globals s) = true ->
        Sketch.globals (Sketch.loop_refresh P UPDATE_INTERVAL_SECS p s)
        = Refresh.updateData P (Sketch.cycle p) (Sketch.globals s)).
Proof.
  intros P secs p s.
  destruct (loop_refresh_booted P secs p s) as [Hb Hm].
  unfold Sketch.loop, Sketch.loop_clock. cbv zeta.
  rewrite Hb, Hm. simpl.
  destruct (Sketch.minute_test p =? Sketch.lastMinute s); simpl.
  - rewrite app_nil_r. repeat split; auto.
    intros Hboot. unfold Sketch.loop_refresh, Sketch.refresh_due. rewrite Hboot. reflexivity.
  - repeat split; auto.
    intros Hboot. unfold Sketch.loop_refresh, Sketch.refresh_due. rewrite Hboot. reflexivity.
Qed.

(** ** What [populate] writes and what the panels read *)

Lemma populate_wf (P : Platform) (doc : Json.value) (f : OW_forecast) :
  Shape.wf_forecast f -> Shape.wf_forecast (Refresh.populate P doc f).
Proof.
  unfold Shape.wf_forecast, Refresh.populate, Refresh.fill_days. simpl.
  rewrite !length_insert. tauto.
Qed.

(** In a forecast object with its 40 slots, each required field holds after
    [populate] the value converted from the place of the document where the
    field is read. *)
Lemma populate_field_stored (P : Platform) (doc : Json.value) (f : OW_forecast)
    (fld : Spec.Field) :
  Shape.wf_forecast f ->
  Spec.field_stored (Refresh.populate P doc f) fld
  = Shape.field_value P fld (Spec.field_source doc fld).
Proof.
  intros (Hdt & Htemp & Hmin & Hmax & Hpr & Hhum & Hid & Hcl & Hws & Hwd).
  unfold slots in *.
  assert (Hday : forall d, In (Spec.day_number d) [1%nat; 2%nat; 3%nat; 4%nat])
    by (intros []; simpl; tauto).
  destruct fld; simpl; unfold rdQ, rdZ; simpl;
    try reflexivity;
    try (rewrite nth_insert_eq by lia; reflexivity).
  - rewrite fill_days_slot0, nth_insert_eq by lia. reflexivity.
  - rewrite (fill_days_slot
               (fun i => Convert.as_float P
                  (Json.element i (Json.member "temperature_2m_max" (Json.member "daily" doc)))))
      by (auto; exact Hmax). reflexivity.
  - rewrite (fill_days_slot
               (fun i => Convert.as_float P
                  (Json.element i (Json.member "temperature_2m_min" (Json.member "daily" doc)))))
      by (auto; exact Hmin). reflexivity.
  - rewrite (fill_days_slot
               (fun i => Convert.as_u16 P
                  (Json.element i (Json.member "weather_code" (Json.member "daily" doc)))))
      by (auto; rewrite length_insert; exact Hid). reflexivity.
  - rewrite (fill_days_slot
               (fun i => Convert.as_u32 P
                  (Json.element i (Json.member "sunrise" (Json.member "daily" doc)))))
      by (auto; exact Hdt). reflexivity.
Qed.

Lemma inject_Z_eq (a b : Z) : inject_Z a = inject_Z b -> a = b.
Proof. intros H. apply (f_equal Qnum) in H. exact H. Qed.

(** The panels read nothing of the forecast object but the city name and
    the required fields. *)
Lemma render_depends_on_fields (P : Platform) (now : Z) (lp : Q) (f g : OW_forecast) :
  city_name f = city_name g ->
  (forall fld, Spec.field_stored f fld = Spec.field_stored g fld) ->
  Panels.render P now lp f = Panels.render P now lp g.
Proof.
  intros Hcity Hfld.
  pose proof (Hfld Spec.Temperature) as Ht. pose proof (Hfld Spec.Pressure) as Hp.
  pose proof (Hfld Spec.WindSpeed) as Hws.
  pose proof (inject_Z_eq _ _ (Hfld Spec.Humidity)) as Hh.
  pose proof (inject_Z_eq _ _ (Hfld Spec.CloudCover)) as Hc.
  pose proof (inject_Z_eq _ _ (Hfld Spec.WindDirection)) as Hwd.
  pose proof (inject_Z_eq _ _ (Hfld Spec.WeatherCode)) as Hcode.
  pose proof (inject_Z_eq _ _ (Hfld Spec.Sunrise)) as Hsr.
  pose proof (inject_Z_eq _ _ (Hfld Spec.Sunset)) as Hss.
  pose proof (fun d => Hfld (Spec.DayMax d)) as Hmax.
  pose proof (fun d => Hfld (Spec.DayMin d)) as Hmin.
  pose proof (fun d => inject_Z_eq _ _ (Hfld (Spec.DayCode d))) as Hdc.
  pose proof (fun d => inject_Z_eq _ _ (Hfld (Spec.DaySunrise d))) as Hds.
  simpl in Ht, Hp, Hws, Hh, Hc, Hwd, Hcode, Hsr, Hss.
  pose proof (Hmax Spec.Day1) as Hmax1. pose proof (Hmax Spec.Day2) as Hmax2.
  pose proof (Hmax Spec.Day3) as Hmax3. pose proof (Hmax Spec.Day4) as Hmax4.
  pose proof (Hmin Spec.Day1) as Hmin1. pose proof (Hmin Spec.Day2) as Hmin2.
  pose proof (Hmin Spec.Day3) as Hmin3. pose proof (Hmin Spec.Day4) as Hmin4.
  pose proof (Hdc Spec.Day1) as Hdc1. pose proof (Hdc Spec.Day2) as Hdc2.
  pose proof (Hdc Spec.Day3) as Hdc3. pose proof (Hdc Spec.Day4) as Hdc4.
  pose proof (Hds Spec.Day1) as Hds1. pose proof (Hds Spec.Day2) as Hds2.
  pose proof (Hds Spec.Day3) as Hds3. pose proof (Hds Spec.Day4) as Hds4.
  simpl in Hmax1, Hmax2, Hmax3, Hmax4, Hmin1, Hmin2, Hmin3, Hmin4,
           Hdc1, Hdc2, Hdc3, Hdc4, Hds1, Hds2, Hds3, Hds4.
  unfold Panels.render, Panels.drawCurrentWeather, Panels.drawTrend, Panels.windPath,
    Panels.drawForecast, Panels.drawForecastDetail, Panels.dayName, Panels.forecastIcon,
    Panels.drawAstronomy.
  cbv zeta. simpl Nat.leb. cbv iota.
  rewrite Hcity, Ht, Hp, Hws, Hh, Hc, Hwd, Hcode, Hsr, Hss,
    Hmax1, Hmax2, Hmax3, Hmax4, Hmin1, Hmin2, Hmin3, Hmin4,
    Hdc1, Hdc2, Hdc3, Hdc4, Hds1, Hds2, Hds3, Hds4.
  reflexivity.
Qed.

(** [populate] writes the required fields and nothing else: in an object
    with its 40 slots every required field ends up holding the value
    converted from its place in the document, the object keeps its 40 slots
    and its city name, and every slot that holds no required field keeps
    its value. *)
Theorem populate_writes_required_fields_only :
  forall (P : Platform) (doc : Json.value) (f : OW_forecast),
    Shape.wf_forecast f ->
    (forall fld, Spec.field_stored (Refresh.populate P doc f) fld
                 = Shape.field_value P fld (Spec.field_source doc fld))
    /\ Shape.wf_forecast (Refresh.populate P doc f)
    /\ city_name (Refresh.populate P doc f) = city_name f
    /\ (forall i : nat, i <> 0%nat ->
          rdQ (temp (Refresh.populate P doc f)) i = rdQ (temp f) i
          /\ rdQ (pressure (Refresh.populate P doc f)) i = rdQ (pressure f) i
          /\ rdQ (wind_speed (Refresh.populate P doc f)) i = rdQ (wind_speed f) i
          /\ rdZ (humidity (Refresh.populate P doc f)) i = rdZ (humidity f) i
          /\ rdZ (clouds_all (Refresh.populate P doc f)) i = rdZ (clouds_all f) i
          /\ rdZ (wind_deg (Refresh.populate P doc f)) i = rdZ (wind_deg f) i)
    /\ (forall i : nat, i <> 8%nat -> i <> 16%nat -> i <> 24%nat -> i <> 32%nat ->
          rdZ (dt (Refresh.populate P doc f)) i = rdZ (dt f) i
          /\ rdQ (temp_min (Refresh.populate P doc f)) i = rdQ (temp_min f) i
          /\ rdQ (temp_max (Refresh.populate P doc f)) i = rdQ (temp_max f) i
          /\ (i <> 0%nat -> rdZ (id (Refresh.populate P doc f)) i = rdZ (id f) i)).
Proof.
  intros P doc f Hwf.
  split; [ intros fld; apply populate_field_stored; exact Hwf | ].
  split; [ apply populate_wf; exact Hwf | ].
  split; [ reflexivity | ].
  split.
  - intros i Hi. unfold rdQ, rdZ. simpl.
    rewrite !nth_insert_ne by lia. repeat split; reflexivity.
  - intros i H8 H16 H24 H32. unfold rdQ, rdZ, Refresh.populate, Refresh.fill_days. simpl.
    rewrite !nth_insert_ne by lia.
    repeat split; try reflexivity.
    intros H0. rewrite nth_insert_ne by lia. reflexivity.
Qed.

Lemma populate_writes_required_fields_only_witness :
  Spec.field_stored
    (Refresh.populate Bench.utc (Bench.weather_doc 1010) Samples.stale_object)
    (Spec.DayCode Spec.Day4)
  = Shape.field_value Bench.utc (Spec.DayCode Spec.Day4)
      (Spec.field_source (Bench.weather_doc 1010) (Spec.DayCode Spec.Day4)).
Proof.
  apply (populate_writes_required_fields_only Bench.utc (Bench.weather_doc 1010)
           Samples.stale_object).
  repeat split; reflexivity.
Defined.

Lemma with_city_wf (f : OW_forecast) (name : string) :
  Shape.wf_forecast f -> Shape.wf_forecast (Refresh.with_city f name).
Proof. intros H. exact H. Qed.

(** What a refresh does depends on the memory that [new OW_forecast]
    returns only through [pressure[0]]: two refreshes that meet the same
    clock and the same answers, on objects with their 40 slots that agree
    on [pressure[0]], leave the same state and the same display, whatever
    else the two objects hold. *)
Theorem refresh_ignores_stale_memory :
  forall (P : Platform) (now : Z) (geo weather : Z * Json.value)
         (fresh1 fresh2 : OW_forecast) (g : Globals),
    Shape.wf_forecast fresh1 -> Shape.wf_forecast fresh2 ->
    rdQ (pressure fresh1) 0 = rdQ (pressure fresh2) 0 ->
    Refresh.updateData P
      {| Refresh.now := now; Refresh.fresh := fresh1;
         Refresh.geo := geo; Refresh.weather := weather |} g
    = Refresh.updateData P
        {| Refresh.now := now; Refresh.fresh := fresh2;
           Refresh.geo := geo; Refresh.weather := weather |} g.
Proof.
  intros P now geo weather fresh1 fresh2 g Hwf1 Hwf2 Hp.
  unfold Refresh.updateData. simpl.
  destruct (fst weather =? 200); [ | reflexivity ].
  set (loc := Location.getLocationName P (lastValidLocation g) (fst geo) (snd geo)).
  assert (Hsaved : Refresh.saved_pressure (Refresh.with_city fresh1 loc) (lastPressure g)
                   = Refresh.saved_pressure (Refresh.with_city fresh2 loc) (lastPressure g)).
  { unfold Refresh.saved_pressure. simpl. rewrite Hp. reflexivity. }
  rewrite Hsaved.
  rewrite (render_depends_on_fields P now _
             (Refresh.populate P (snd weather) (Refresh.with_city fresh1 loc))
             (Refresh.populate P (snd weather) (Refresh.with_city fresh2 loc))).
  - reflexivity.
  - reflexivity.
  - intros fld.
    rewrite !populate_field_stored by (apply with_city_wf; assumption).
    reflexivity.
Qed.

Lemma refresh_ignores_stale_memory_witness :
  Refresh.updateData Bench.utc
    {| Refresh.now := 1704110000; Refresh.fresh := OW_forecast_zero;
       Refresh.geo := (-1, Json.Null); Refresh.weather := (200, Bench.weather_doc 1010) |}
    Refresh.initial
  = Refresh.updateData Bench.utc
      {| Refresh.now := 1704110000; Refresh.fresh := Samples.stale_object;
         Refresh.geo := (-1, Json.Null); Refresh.weather := (200, Bench.weather_doc 1010) |}
      Refresh.initial.
Proof.
  apply (refresh_ignores_stale_memory Bench.utc 1704110000 (-1, Json.Null)
           (200, Bench.weather_doc 1010) OW_forecast_zero Samples.stale_object
           Refresh.initial).
  - repeat split; reflexivity.
  - repeat split; reflexivity.
  - reflexivity.
Defined.

(** ** The location cache as a last known good value *)

Lemma lookups_app (P : Platform) (cache : string) (rs1 rs2 : list (Z * Json.value)) :
  Location.lookups P cache (rs1 ++ rs2) = Location.lookups P (Location.lookups P cache rs1) rs2.
Proof.
  revert cache. induction rs1 as [ | [code doc] rest IH ]; intros cache; simpl;
    [ reflexivity | apply IH ].
Qed.

(** An answer of the geocoder is either ignored, whatever the cache holds,
    or accepted, and then the new value does not depend on the cache: it is
    a city that is neither empty nor "null", then ", ", then a country that
    is not "null".  So after any run of lookups the cache holds what the last
    accepted answer gave, however many ignored answers follow it. *)
Theorem location_is_last_accepted_answer :
  forall (P : Platform) (code : Z) (doc : Json.value),
    ((forall cache, Location.getLocationName P cache code doc = cache)
     \/ (exists city country,
           city <> "" /\ city <> "null" /\ country <> "null"
           /\ forall cache,
                Location.getLocationName P cache code doc = city +:+ ", " +:+ country))
    /\ (forall cache rs1 rs2,
          Forall (fun r => forall c, Location.getLocationName P c (fst r) (snd r) = c) rs2 ->
          Location.lookups P cache (rs1 ++ (code, doc) :: rs2)
          = Location.getLocationName P (Location.lookups P cache rs1) code doc).
Proof.
  intros P code doc. split.
  - unfold Location.getLocationName.
    destruct (code =? 200); [ | left; reflexivity ].
    cbv zeta.
    set (city := if (Convert.as_String P (Json.member "city" doc) =? "null")%string
                    || (Convert.as_String P (Json.member "city" doc) =? "")%string
                 then Convert.as_String P (Json.member "locality" doc)
                 else Convert.as_String P (Json.member "city" doc)).
    set (country := Convert.as_String P (Json.member "countryName" doc)).
    destruct (String.eqb_spec city "null") as [ | Hnull ]; simpl; [ left; reflexivity | ].
    destruct (String.eqb_spec country "null") as [ | Hcn ]; simpl; [ left; reflexivity | ].
    destruct (String.eqb_spec city "") as [ | Hempty ]; simpl; [ left; reflexivity | ].
    right. exists city, country. repeat split; auto.
  - intros cache rs1 rs2 Hfail.
    rewrite lookups_app. simpl.
    generalize (Location.getLocationName P (Location.lookups P cache rs1) code doc).
    induction Hfail as [ | [c d] rest Hr _ IH ]; intros v; simpl; [ reflexivity | ].
    simpl in Hr. rewrite Hr. apply IH.
Qed.

Lemma location_is_last_accepted_answer_witness :
  Location.lookups Bench.utc Location.default_location
    ([ (200, Json.Obj [ ("city", Json.Str "Lima"); ("countryName", Json.Str "Peru") ]) ]
     ++ (200, Json.Obj [ ("city", Json.Str ""); ("locality", Json.Str "Cusco");
                         ("countryName", Json.Str "Peru") ])
        :: [ (-1, Json.Null); (500, Json.Obj []) ])
  = "Cusco, Peru".
Proof.
  rewrite (proj2 (location_is_last_accepted_answer Bench.utc 200
                    (Json.Obj [ ("city", Json.Str ""); ("locality", Json.Str "Cusco");
                                ("countryName", Json.Str "Peru") ])))
    by (repeat constructor; intros c; reflexivity).
  reflexivity.
Defined.

(** ** The refresh cycle, from the document to the display *)

(** Whatever the document holds, the rendering of the object populated from
    it contains every call of [Expect.required_draws]: each required field
    reaches the display with the value read in the document. *)
Lemma render_shows_document (P : Platform) (now : Z) (lp : Q) (doc : Json.value)
    (f : OW_forecast) :
  Shape.wf_forecast f ->
  incl (Expect.required_draws P now doc) (Panels.render P now lp (Refresh.populate P doc f)).
Proof.
  intros Hwf.
  pose proof (populate_field_stored P doc f) as Hst.
  assert (Ht : rdQ (temp (Refresh.populate P doc f)) 0 = Expect.doc_float P doc Spec.Temperature)
    by exact (Hst Spec.Temperature Hwf).
  assert (Hp : rdQ (pressure (Refresh.populate P doc f)) 0 = Expect.doc_float P doc Spec.Pressure)
    by exact (Hst Spec.Pressure Hwf).
  assert (Hws : rdQ (wind_speed (Refresh.populate P doc f)) 0
                = Expect.doc_float P doc Spec.WindSpeed)
    by exact (Hst Spec.WindSpeed Hwf).
  assert (Hh : rdZ (humidity (Refresh.populate P doc f)) 0 = Expect.doc_int P doc Spec.Humidity)
    by exact (inject_Z_eq _ _ (Hst Spec.Humidity Hwf)).
  assert (Hc : rdZ (clouds_all (Refresh.populate P doc f)) 0
               = Expect.doc_int P doc Spec.CloudCover)
    by exact (inject_Z_eq _ _ (Hst Spec.CloudCover Hwf)).
  assert (Hwd : rdZ (wind_deg (Refresh.populate P doc f)) 0
                = Expect.doc_int P doc Spec.WindDirection)
    by exact (inject_Z_eq _ _ (Hst Spec.WindDirection Hwf)).
  assert (Hcode : rdZ (id (Refresh.populate P doc f)) 0 = Expect.doc_int P doc Spec.WeatherCode)
    by exact (inject_Z_eq _ _ (Hst Spec.WeatherCode Hwf)).
  assert (Hsr : sunrise (Refresh.populate P doc f) = Expect.doc_int P doc Spec.Sunrise)
    by exact (inject_Z_eq _ _ (Hst Spec.Sunrise Hwf)).
  assert (Hss : sunset (Refresh.populate P doc f) = Expect.doc_int P doc Spec.Sunset)
    by exact (inject_Z_eq _ _ (Hst Spec.Sunset Hwf)).
  assert (Hmax : forall d, rdQ (temp_max (Refresh.populate P doc f)) (Spec.day_number d * 8)
                           = Expect.doc_float P doc (Spec.DayMax d))
    by (intros d; exact (Hst (Spec.DayMax d) Hwf)).
  assert (Hmin : forall d, rdQ (temp_min (Refresh.populate P doc f)) (Spec.day_number d * 8)
                           = Expect.doc_float P doc (Spec.DayMin d))
    by (intros d; exact (Hst (Spec.DayMin d) Hwf)).
  assert (Hdc : forall d, rdZ (id (Refresh.populate P doc f)) (Spec.day_number d * 8)
                          = Expect.doc_int P doc (Spec.DayCode d))
    by (intros d; exact (inject_Z_eq _ _ (Hst (Spec.DayCode d) Hwf))).
  assert (Hds : forall d, rdZ (dt (Refresh.populate P doc f)) (Spec.day_number d * 8)
                          = Expect.doc_int P doc (Spec.DaySunrise d))
    by (intros d; exact (inject_Z_eq _ _ (Hst (Spec.DaySunrise d) Hwf))).
  pose proof (Hmax Spec.Day1) as Hmax1. pose proof (Hmax Spec.Day2) as Hmax2.
  pose proof (Hmax Spec.Day3) as Hmax3. pose proof (Hmax Spec.Day4) as Hmax4.
  pose proof (Hmin Spec.Day1) as Hmin1. pose proof (Hmin Spec.Day2) as Hmin2.
  pose proof (Hmin Spec.Day3) as Hmin3. pose proof (Hmin Spec.Day4) as Hmin4.
  pose proof (Hdc Spec.Day1) as Hdc1. pose proof (Hdc Spec.Day2) as Hdc2.
  pose proof (Hdc Spec.Day3) as Hdc3. pose proof (Hdc Spec.Day4) as Hdc4.
  pose proof (Hds Spec.Day1) as Hds1. pose proof (Hds Spec.Day2) as Hds2.
  pose proof (Hds Spec.Day3) as Hds3. pose proof (Hds Spec.Day4) as Hds4.
  clear Hst Hmax Hmin Hdc Hds.
  change (Spec.day_number Spec.Day1 * 8)%nat with 8%nat in *.
  change (Spec.day_number Spec.Day2 * 8)%nat with 16%nat in *.
  change (Spec.day_number Spec.Day3 * 8)%nat with 24%nat in *.
  change (Spec.day_number Spec.Day4 * 8)%nat with 32%nat in *.
  set (pop := Refresh.populate P doc f) in *.
  unfold Panels.render, Panels.drawCurrentWeather, Panels.drawTrend, Panels.windPath,
    Panels.drawForecast, Panels.drawForecastDetail, Panels.dayName, Panels.forecastIcon,
    Panels.drawAstronomy, Panels.drawSeparator,
    Expect.required_draws, Expect.column, Expect.column_x.
  cbv zeta. simpl Nat.leb. cbv iota.
  rewrite Ht, Hp, Hws, Hh, Hc, Hwd, Hcode, Hsr, Hss,
    Hmax1, Hmax2, Hmax3, Hmax4, Hmin1, Hmin2, Hmin3, Hmin4,
    Hdc1, Hdc2, Hdc3, Hdc4, Hds1, Hds2, Hds3, Hds4.
  destruct (moon_phase P _ _ _ _) as [icon ip].
  intros x Hx.
  rewrite !in_app_iff. simpl in Hx |- *.
  repeat (destruct Hx as [<- | Hx]; [ tauto | ]).
  destruct Hx.
Qed.

(** C1, as the code has it.  The refresh publishes nothing exactly when the
    forecast request does not answer 200: then (after boot) the display and
    the stored pressure are as before.  On a 200 answer no field is checked:
    whatever the document holds, the display becomes what it was, followed
    (after the progress bars of the first refresh) by the clearing of the
    screen and the rendering of the object populated from the document; in
    that object every required field holds the value converted from the
    document, 0 for a field that the document lacks, and every one of these
    values is drawn in its panel. *)
Theorem refresh_publishes_iff_status_200 :
  forall (P : Platform) (c : Refresh.Cycle) (g : Globals),
    (fst (Refresh.weather c) <> 200 ->
       lastPressure (Refresh.updateData P c g) = lastPressure g
       /\ (booted g = false -> screen (Refresh.updateData P c g) = screen g))
    /\ (fst (Refresh.weather c) = 200 ->
        (exists before shown,
           screen (Refresh.updateData P c g) = (before ++ FillScreen :: shown)%list
           /\ (booted g = false -> before = screen g)
           /\ (length (screen g) < length (screen (Refresh.updateData P c g)))%nat)
        /\ screen (Refresh.updateData P c g)
           = (screen g
              ++ (if booted g
                  then Panels.drawProgress 20 "Updating time..."
                       ++ Panels.drawProgress 50 "Updating conditions..."
                  else [])
              ++ Panels.render P (Refresh.now c)
                   (Refresh.saved_pressure (Refresh.fresh c) (lastPressure g))
                   (Refresh.populate P (snd (Refresh.weather c))
                      (Refresh.with_city (Refresh.fresh c)
                         (Location.getLocationName P (lastValidLocation g)
                            (fst (Refresh.geo c)) (snd (Refresh.geo c))))))%list
        /\ (Shape.wf_forecast (Refresh.fresh c) ->
            incl (Expect.required_draws P (Refresh.now c) (snd (Refresh.weather c)))
                 (screen (Refresh.updateData P c g))
            /\ forall fld,
                 Spec.field_stored
                   (Refresh.populate P (snd (Refresh.weather c))
                      (Refresh.with_city (Refresh.fresh c)
                         (Location.getLocationName P (lastValidLocation g)
                            (fst (Refresh.geo c)) (snd (Refresh.geo c))))) fld
                 = Shape.field_value P fld
                     (Spec.field_source (snd (Refresh.weather c)) fld)))
    /\ (forall (f : OW_forecast) (fld : Spec.Field),
          Spec.field_source (snd (Refresh.weather c)) fld = Json.Null ->
          Spec.field_stored (Refresh.populate P (snd (Refresh.weather c)) f) fld = 0%Q).
Proof.
  intros P c g. split; [ | split ].
  - intros Hcode. split.
    + rewrite updateData_saves_fresh_pressure.
      rewrite (proj2 (Z.eqb_neq _ _)) by exact Hcode. reflexivity.
    + intros Hboot. rewrite updateData_screen, Hboot.
      rewrite (proj2 (Z.eqb_neq _ _)) by exact Hcode.
      simpl. apply app_nil_r.
  - intros Hcode.
    assert (Hscreen := updateData_screen P c g).
    rewrite (proj2 (Z.eqb_eq _ _) Hcode) in Hscreen.
    split; [ | split; [ exact Hscreen | ] ].
    + rewrite Hscreen. unfold Panels.render. cbv zeta.
      eexists (screen g ++ _)%list, _. split.
      * rewrite app_assoc. simpl. reflexivity.
      * split.
        -- intros Hboot. rewrite Hboot. apply app_nil_r.
        -- rewrite !length_app. simpl. lia.
    + intros Hwf. split.
      * rewrite Hscreen.
        apply incl_appr, incl_appr, render_shows_document, with_city_wf, Hwf.
      * intros fld. apply populate_field_stored, with_city_wf, Hwf.
  - intros f fld. apply missing_field_stored_zero.
Qed.

Lemma refresh_publishes_iff_status_200_witness :
  screen (Refresh.updateData Bench.utc (Bench.cycle 1704120000 404 Json.Null) Bench.after_first)
  = screen Bench.after_first
  /\ incl (Expect.required_draws Bench.utc 1704120000 Bench.no_cloud_doc)
          (screen (Refresh.updateData Bench.utc
                     (Bench.cycle 1704120000 200 Bench.no_cloud_doc) Bench.after_first)).
Proof.
  split.
  - destruct (refresh_publishes_iff_status_200 Bench.utc
                (Bench.cycle 1704120000 404 Json.Null) Bench.after_first) as [H _].
    destruct H as [_ H]; [ simpl; lia | ].
    apply H. reflexivity.
  - destruct (refresh_publishes_iff_status_200 Bench.utc
                (Bench.cycle 1704120000 200 Bench.no_cloud_doc) Bench.after_first)
      as (_ & H & _).
    destruct H as (_ & _ & H); [ reflexivity | ].
    destruct H as [H _]; [ repeat split; reflexivity | ].
    exact H.
Defined.
